(** * FDIC Bank Explorer: the filter callbacks of [fdic_dashboard.py]

    A shallow embedding of the Dash callbacks that derive the dropdown
    options, the chart-click overrides, the county chart and the branch
    table from the two in-memory tables, together with the properties the
    design document states about them.

    The two pandas data frames are lists of records (one record per row, in
    row order).  A boolean-mask selection [df[df[c] == v]] is a [filter];
    a missing value (NaN) of a text column is [None]. *)

From Stdlib Require Import String Ascii ZArith NArith Decimal DecimalString.
From stdpp Require Import base decidable option list sorting gmap strings.

Open Scope string_scope.
Open Scope list_scope.

(** ** Python strings, ordered by code point *)

(** [a <= b] on Python strings is the lexicographic order on code points, which
    on the UTF-8 encoding is the lexicographic order on bytes. *)
Definition str_le (a b : string) : Prop := String.leb a b = true.

#[global] Instance str_le_dec a b : Decision (str_le a b).
Proof. unfold str_le. apply _. Defined.

(** Python truthiness of an optional string ([None] and [""] are falsy). *)
Definition truthy (o : option string) : bool :=
  match o with
  | Some s => negb (String.eqb s "")
  | None => false
  end.

(** [str(x)] of an optional string inside an f-string. *)
Definition py_str (o : option string) : string :=
  match o with Some s => s | None => "None" end.

(** ** The tables *)

(** A cell of a data frame: missing, text or a number.  The callbacks pass
    numeric cells through untouched. *)
Inductive cell :=
  | NaN
  | Str (s : string)
  | Num (n : Z).

#[global] Instance cell_eq_dec : EqDecision cell.
Proof. solve_decision. Defined.

(** A text column holds a string or is missing. *)
Definition text (o : option string) : cell :=
  match o with Some s => Str s | None => NaN end.

Module Inst.
(** A row of [institutions]; [CERT] is a string after [astype(str)]. *)
Record t := mk {
  CERT : string;
  NAME : option string;
  CHARTER : cell;
  BKCLASS : cell;
  ADDRESS : cell;
  CITY : cell;
  STNAME : cell;
  ZIP : cell
}.
End Inst.

Module Loc.
(** A row of [locations]; [CERT] is a string after [astype(str)].  The
    coordinates are numeric columns: a number or missing. *)
Record t := mk {
  CERT : string;
  NAME : cell;
  OFFNAME : cell;
  ADDRESS : cell;
  CITY : cell;
  COUNTY : option string;
  STNAME : option string;
  ZIP : cell;
  SERVTYPE_DESC : cell;
  MAINOFF : cell;
  ESTYMD : cell;
  LATITUDE : option Z;
  LONGITUDE : option Z
}.
End Loc.

(** ** The pandas and Python operations the callbacks use *)

(** [Series.dropna()]. *)
Definition dropna {A} (l : list (option A)) : list A := omap id l.

(** [Series.unique()]: the distinct values in order of first appearance. *)
Fixpoint unique `{EqDecision A} (l : list A) : list A :=
  match l with
  | [] => []
  | x :: l' => x :: filter (λ y, y ≠ x) (unique l')
  end.

(** [sorted(xs)] on strings. *)
Definition sorted (l : list string) : list string := merge_sort str_le l.

(** [df.head(n)]. *)
Definition head {A} (n : nat) (l : list A) : list A := take n l.

(** An entry of a dropdown's [options]. *)
Record dd_option := { label : string; value : string }.

Definition all_counties : dd_option :=
  {| label := "All Counties"; value := "ALL" |}.

(** ** [update_county_options] *)

Definition update_county_options (locations : list Loc.t)
    (selected_state : string) : list dd_option * string :=
  if decide (selected_state = "ALL") then
    ([all_counties], "ALL")
  else
    let counties_in_state :=
      sorted (unique (dropna
        (Loc.COUNTY <$> filter (λ r, Loc.STNAME r = Some selected_state) locations))) in
    let options :=
      [all_counties] ++ ((λ c, {| label := c; value := c |}) <$> counties_in_state) in
    (options, "ALL").

(** ** [update_institution_options] *)

(** A text cell inside an f-string; pandas prints a missing value as [nan]. *)
Definition fmt_text (o : option string) : string :=
  match o with Some s => s | None => "nan" end.

(** The order of [sort_values("NAME")]: by name, missing names last. *)
Definition name_le (a b : Inst.t) : Prop :=
  match Inst.NAME a, Inst.NAME b with
  | Some x, Some y => str_le x y
  | _, None => True
  | None, Some _ => False
  end.

#[global] Instance name_le_dec a b : Decision (name_le a b).
Proof. unfold name_le. destruct (Inst.NAME a), (Inst.NAME b); apply _. Defined.

(** [institutions.sort_values("NAME")].  pandas leaves the relative order of
    rows with equal names to its sorting routine; the properties below use
    only that the result is a sorted rearrangement of the rows. *)
Definition sort_values_NAME (df : list Inst.t) : list Inst.t :=
  merge_sort name_le df.

Definition institution_option (row : Inst.t) : dd_option :=
  {| label := fmt_text (Inst.NAME row) +:+ " (CERT: " +:+ Inst.CERT row +:+ ")";
     value := Inst.CERT row |}.

Definition update_institution_options (institutions : list Inst.t)
    (locations : list Loc.t) (selected_state selected_county : string)
    : list dd_option :=
  let filtered_locations := locations in
  let filtered_locations :=
    if decide (selected_state ≠ "ALL")
    then filter (λ r, Loc.STNAME r = Some selected_state) filtered_locations
    else filtered_locations in
  let filtered_locations :=
    if decide (selected_county ≠ "ALL")
    then filter (λ r, Loc.COUNTY r = Some selected_county) filtered_locations
    else filtered_locations in
  let certs_in_area := unique (Loc.CERT <$> filtered_locations) in
  let filtered_institutions :=
    filter (λ i, Inst.CERT i ∈ certs_in_area) institutions in
  institution_option <$> sort_values_NAME filtered_institutions.

(** ** Python exceptions *)

Inductive exn :=
  | IndexError
  | KeyError (key : string).

Inductive result (A : Type) :=
  | Ok (a : A)
  | Raise (e : exn).
Arguments Ok {A} a.
Arguments Raise {A} e.

#[global] Instance result_ret : MRet result := λ A a, Ok a.

#[global] Instance result_bind : MBind result := λ A B k m,
  match m with
  | Ok a => k a
  | Raise e => Raise e
  end.

(** [d[k]] on a dict and [l[i]] on a list (or [df.iloc[i]] on a frame). *)
Definition getitem {V} (d : gmap string V) (k : string) : result V :=
  match d !! k with
  | Some v => Ok v
  | None => Raise (KeyError k)
  end.

Definition getindex {A} (l : list A) (i : nat) : result A :=
  match l !! i with
  | Some v => Ok v
  | None => Raise IndexError
  end.

(** ** The chart-click overrides *)

(** The [clickData] of a graph is [None] or a dict such as
    [{"points": [{"x": "TX", ...}]}]; [truthy_click] is the dict when the
    value is truthy (neither [None] nor the empty dict). *)
Definition truthy_click (c : option (gmap string (list (gmap string string))))
    : option (gmap string (list (gmap string string))) :=
  match c with
  | Some d => if decide (d = ∅) then None else Some d
  | None => None
  end.

(** [click["points"][0][key]]. *)
Definition clicked_value (click : gmap string (list (gmap string string)))
    (key : string) : result string :=
  points ← getitem click "points";
  p ← getindex points 0;
  getitem p key.

(** [ctx.triggered_id] is passed as the first argument. *)
Definition update_chart_state_filter (triggered_id : option string)
    (bar_click pie_click : option (gmap string (list (gmap string string))))
    (dropdown_state : string) (institution : option string)
    (current_state : option string) : result (option string) :=
  if decide (triggered_id ∈ [Some "state-filter"; Some "institution-dropdown"]) then
    Ok None
  else
    match (if decide (triggered_id = Some "state-bar-chart")
           then truthy_click bar_click else None) with
    | Some bar_click =>
        clicked_state ← clicked_value bar_click "x";
        if decide (current_state = Some clicked_state) then Ok None
        else Ok (Some clicked_state)
    | None =>
        match (if decide (triggered_id = Some "state-pie-chart")
               then truthy_click pie_click else None) with
        | Some pie_click =>
            clicked_state ← clicked_value pie_click "label";
            if decide (current_state = Some clicked_state) then Ok None
            else Ok (Some clicked_state)
        | None => Ok current_state
        end
    end.

Definition update_chart_county_filter (triggered_id : option string)
    (county_click : option (gmap string (list (gmap string string))))
    (dropdown_state dropdown_county : string) (institution : option string)
    (chart_state : option string) (current_county : option string)
    : result (option string) :=
  if decide (triggered_id ∈ [Some "state-filter"; Some "county-filter";
                             Some "institution-dropdown"; Some "chart-state-filter"]) then
    Ok None
  else
    match (if decide (triggered_id = Some "county-bar-chart")
           then truthy_click county_click else None) with
    | Some county_click =>
        clicked_county ← clicked_value county_click "y";
        if decide (current_county = Some clicked_county) then Ok None
        else Ok (Some clicked_county)
    | None => Ok current_county
    end.

(** ** Aggregates *)

(** Descending order on the counts of an aggregate. *)
Definition count_ge (a b : string * nat) : Prop := (b.2 ≤ a.2)%nat.

#[global] Instance count_ge_dec a b : Decision (count_ge a b).
Proof. unfold count_ge. apply _. Defined.

(** Sorting an aggregate by descending count, rows of equal count staying
    in their original order. *)
Fixpoint insert_by_count (x : string * nat) (l : list (string * nat))
    : list (string * nat) :=
  match l with
  | [] => [x]
  | y :: l' => if decide (count_ge x y) then x :: l else y :: insert_by_count x l'
  end.

Definition sort_by_count (l : list (string * nat)) : list (string * nat) :=
  foldr insert_by_count [] l.

(** [Series.value_counts()]: the distinct non-missing values with their
    number of occurrences, most frequent first.  pandas leaves the order of
    values with equal counts to its sorting routine; here they keep the
    order of first appearance. *)
Definition value_counts (col : list (option string)) : list (string * nat) :=
  let vs := dropna col in
  sort_by_count ((λ v, (v, length (filter (λ x, x = v) vs))) <$> unique vs).

(** ** [update_county_chart] *)

(** The county chart: the bare figure [empty_county], possibly with an
    annotation, or a bar chart with a title. *)
Inductive county_figure :=
  | EmptyCounty (annotation : option string)
  | CountyBar (chart_title : string) (top_counties : list (string * nat)).

Definition active_state_filter (state_filter : string)
    (chart_state_filter : option string) : option string :=
  if truthy chart_state_filter then chart_state_filter
  else if decide (state_filter ≠ "ALL") then Some state_filter else None.

Definition update_county_chart (locations : list Loc.t) (cert : option string)
    (state_filter : string) (chart_state_filter : option string)
    : county_figure :=
  if negb (truthy cert) then EmptyCounty None
  else
    let branches := filter (λ r, Some (Loc.CERT r) = cert) locations in
    if decide (branches = []) then EmptyCounty None
    else
      let active_state_filter := active_state_filter state_filter chart_state_filter in
      let '(county_data, chart_title) :=
        if truthy active_state_filter then
          (filter (λ r, Loc.STNAME r = active_state_filter) branches,
           "Branches by County (" +:+ py_str active_state_filter +:+ ")")
        else (branches, "Branches by County (All States)") in
      if decide (county_data = []) then
        EmptyCounty (Some ("No branches in " +:+ py_str active_state_filter))
      else
        let county_counts := value_counts (Loc.COUNTY <$> county_data) in
        let top_counties := head 15 county_counts in
        CountyBar chart_title top_counties.

(** ** [update_branch_table] *)

(** [f"{n:,}"]: decimal digits in groups of three. *)
Fixpoint group3 (ds : list ascii) : list ascii :=
  match ds with
  | a :: b :: c :: rest =>
      match rest with
      | [] => ds
      | _ :: _ => a :: b :: c :: ","%char :: group3 rest
      end
  | _ => ds
  end.

Definition fmt_thousands (n : nat) : string :=
  string_of_list_ascii
    (rev (group3 (rev (list_ascii_of_string
      (NilEmpty.string_of_uint (Nat.to_uint n)))))).

(** [df[[...the ten table columns...]]]: one row as (column, cell) pairs. *)
Definition table_columns (r : Loc.t) : list (string * cell) :=
  [("NAME", Loc.NAME r); ("OFFNAME", Loc.OFFNAME r); ("ADDRESS", Loc.ADDRESS r);
   ("CITY", Loc.CITY r); ("COUNTY", text (Loc.COUNTY r));
   ("STNAME", text (Loc.STNAME r)); ("ZIP", Loc.ZIP r);
   ("SERVTYPE_DESC", Loc.SERVTYPE_DESC r); ("MAINOFF", Loc.MAINOFF r);
   ("ESTYMD", Loc.ESTYMD r)].

(** [fillna("")] on one cell. *)
Definition fillna (c : cell) : cell :=
  match c with
  | NaN => Str ""
  | _ => c
  end.

(** [df[[...]].fillna("").to_dict("records")]. *)
Definition to_records (df : list Loc.t) : list (list (string * cell)) :=
  (λ r, prod_map id fillna <$> table_columns r) <$> df.

Definition update_branch_table (locations : list Loc.t) (cert : option string)
    (state_filter county_filter : string)
    (chart_state chart_county : option string)
    : list (list (string * cell)) * string :=
  if negb (truthy cert) then
    if decide (state_filter = "ALL" ∧ county_filter = "ALL") then
      ([], "Select a state/county to view all branches, or select an institution")
    else
      let table_branches := locations in
      let filter_info_parts : list string := [] in
      let '(table_branches, filter_info_parts) :=
        if decide (state_filter ≠ "ALL")
        then (filter (λ r, Loc.STNAME r = Some state_filter) table_branches,
              filter_info_parts ++ ["State: " +:+ state_filter])
        else (table_branches, filter_info_parts) in
      let '(table_branches, filter_info_parts) :=
        if decide (county_filter ≠ "ALL")
        then (filter (λ r, Loc.COUNTY r = Some county_filter) table_branches,
              filter_info_parts ++ ["County: " +:+ county_filter])
        else (table_branches, filter_info_parts) in
      let filter_info :=
        "Showing all branches in " +:+ String.concat ", " filter_info_parts +:+
        " (" +:+ fmt_thousands (length table_branches) +:+
        " branches from all institutions)" in
      let table_data := to_records table_branches in
      (table_data, filter_info)
  else
    let branches := filter (λ r, Some (Loc.CERT r) = cert) locations in
    if decide (branches = []) then ([], "")
    else
      let table_branches := branches in
      let table_branches :=
        if decide (state_filter ≠ "ALL")
        then filter (λ r, Loc.STNAME r = Some state_filter) table_branches
        else table_branches in
      let table_branches :=
        if decide (county_filter ≠ "ALL")
        then filter (λ r, Loc.COUNTY r = Some county_filter) table_branches
        else table_branches in
      let filter_info_parts : list string := [] in
      let '(table_branches, filter_info_parts) :=
        if truthy chart_state
        then (filter (λ r, Loc.STNAME r = chart_state) table_branches,
              filter_info_parts ++ ["State: " +:+ py_str chart_state])
        else (table_branches, filter_info_parts) in
      let '(table_branches, filter_info_parts) :=
        if truthy chart_county
        then (filter (λ r, Loc.COUNTY r = chart_county) table_branches,
              filter_info_parts ++ ["County: " +:+ py_str chart_county])
        else (table_branches, filter_info_parts) in
      let filter_info :=
        if decide (filter_info_parts ≠ [])
        then "Filtered by chart selection: " +:+ String.concat ", " filter_info_parts +:+
             " (click again to clear)"
        else "Click on a state or county chart to filter" in
      let table_data := to_records table_branches in
      (table_data, filter_info).

(** ** [update_dashboard] *)

(** The institution-info card. *)
Inductive info :=
  | SelectAnInstitution
  | NoBranchData (name : option string)
  | InfoCard (inst : Inst.t) (total_branches : nat) (hq : bool).

(** The map: the placeholder figure with its annotations, or a scatter map.
    [px.scatter_mapbox] is given the branches that have coordinates and
    draws one trace per value of its [color] column STNAME, so it plots the
    rows whose STNAME is not missing; the view is recentred on the mean of
    the whole frame when the frame has more than one row. *)
Inductive map_figure :=
  | EmptyMap (annotations : list string)
  | ScatterMap (points : list Loc.t) (recentred : bool).

(** The state bar and pie charts. *)
Inductive state_figure :=
  | EmptyFigure
  | StateFigure (data : list (string * nat)).

Definition update_dashboard (institutions : list Inst.t)
    (locations : list Loc.t) (cert : option string)
    (state_filter county_filter : string)
    : result (info * map_figure * state_figure * state_figure) :=
  let empty_map := EmptyMap ["Select an institution to view branch locations"] in
  let empty_bar := EmptyFigure in
  let empty_pie := EmptyFigure in
  if negb (truthy cert) then
    Ok (SelectAnInstitution, empty_map, empty_bar, empty_pie)
  else
    inst ← getindex (filter (λ i, Some (Inst.CERT i) = cert) institutions) 0;
    let branches := filter (λ r, Some (Loc.CERT r) = cert) locations in
    if decide (branches = []) then
      Ok (NoBranchData (Inst.NAME inst), empty_map, empty_bar, empty_pie)
    else
      let info_card :=
        InfoCard inst (length branches) (bool_decide (Inst.ADDRESS inst ≠ NaN)) in
      let branches_with_coords :=
        filter (λ r, Loc.LATITUDE r ≠ None ∧ Loc.LONGITUDE r ≠ None) branches in
      let fig_map :=
        if decide (branches_with_coords ≠ []) then
          ScatterMap (filter (λ r, Loc.STNAME r ≠ None) branches_with_coords)
            (bool_decide (1 < length branches_with_coords)%nat)
        else
          EmptyMap ["Select an institution to view branch locations";
                    "No location coordinates available"] in
      let state_counts := value_counts (Loc.STNAME <$> branches) in
      let fig_bar := StateFigure (head 10 state_counts) in
      let fig_pie := StateFigure (head 8 state_counts) in
      Ok (info_card, fig_map, fig_bar, fig_pie).

(** ** The filter state and the wiring of the views *)

(** The five inputs the callbacks read: the three dropdown values and the
    two [dcc.Store] overrides. *)
Record FilterState := {
  stateSelector : string;
  countySelector : string;
  institutionSelector : option string;
  chartStateOverride : option string;
  chartCountyOverride : option string
}.

(** The [Input]s declared for [update_county_chart]. *)
Definition county_chart_view (locations : list Loc.t) (fs : FilterState)
    : county_figure :=
  update_county_chart locations
    (institutionSelector fs) (stateSelector fs) (chartStateOverride fs).

(** The [Input]s declared for [update_branch_table]. *)
Definition branch_table_view (locations : list Loc.t) (fs : FilterState)
    : list (list (string * cell)) * string :=
  update_branch_table locations
    (institutionSelector fs) (stateSelector fs) (countySelector fs)
    (chartStateOverride fs) (chartCountyOverride fs).

(** ** The module-level values: [all_states] and the initial options *)

Definition all_states (locations : list Loc.t) : list string :=
  sorted (unique (dropna (Loc.STNAME <$> locations))).

(** The [options] of the state dropdown in the layout. *)
Definition state_options (locations : list Loc.t) : list dd_option :=
  [{| label := "All States"; value := "ALL" |}] ++
  ((λ s, {| label := s; value := s |}) <$> all_states locations).

(** The [options] the institution dropdown starts with. *)
Definition institution_options (institutions : list Inst.t) : list dd_option :=
  institution_option <$> sort_values_NAME institutions.

(** ** [update_institutions_in_area] *)

(** The order in which [groupby] lists the values of an object column:
    numbers before text, each in its own order. *)
Definition cell_le (a b : cell) : Prop :=
  match a, b with
  | Num m, Num n => (m ≤ n)%Z
  | Num _, _ => True
  | Str _, Num _ => False
  | Str x, Str y => str_le x y
  | Str _, NaN => True
  | NaN, NaN => True
  | NaN, _ => False
  end.

#[global] Instance cell_le_dec a b : Decision (cell_le a b).
Proof. destruct a, b; simpl; apply _. Defined.

(** The order of the (CERT, NAME) keys of [groupby(["CERT", "NAME"])]. *)
Definition key_le (a b : string * cell) : Prop :=
  if decide (a.1 = b.1) then cell_le a.2 b.2 else str_le a.1 b.1.

#[global] Instance key_le_dec a b : Decision (key_le a b).
Proof. unfold key_le. destruct (decide (a.1 = b.1)); apply _. Defined.

(** [df.groupby(["CERT", "NAME"]).size().reset_index(name="Branches")]: one
    row per (CERT, NAME) pair present, in key order, with the number of rows
    of the pair; rows whose NAME is missing belong to no group. *)
Definition groupby_CERT_NAME_size (df : list Loc.t) : list (string * cell * nat) :=
  let keyed := filter (λ k : string * cell, k.2 ≠ NaN)
                 ((λ r, (Loc.CERT r, Loc.NAME r)) <$> df) in
  (λ k, (k, length (filter (λ k', k' = k) keyed))) <$>
    merge_sort key_le (unique keyed).

(** [sort_values("Branches", ascending=False)], rows of equal count staying
    in their order. *)
Fixpoint insert_by_Branches (x : string * cell * nat)
    (l : list (string * cell * nat)) : list (string * cell * nat) :=
  match l with
  | [] => [x]
  | y :: l' =>
      if decide (y.2 ≤ x.2)%nat then x :: l else y :: insert_by_Branches x l'
  end.

Definition sort_by_Branches (l : list (string * cell * nat))
    : list (string * cell * nat) :=
  foldr insert_by_Branches [] l.

(** [str(n)] of a length. *)
Definition fmt_nat (n : nat) : string :=
  NilEmpty.string_of_uint (Nat.to_uint n).

(** The section shown under the charts: its heading, its summary line, the
    title of its bar chart and the bars, one per (CERT, NAME) pair. *)
Record area_section := {
  heading : string;
  summary : string;
  fig_title : string;
  top_institutions : list (string * cell * nat)
}.

Definition update_institutions_in_area (locations : list Loc.t)
    (cert : option string) (state_filter county_filter : string)
    : option area_section :=
  if truthy cert || bool_decide (state_filter = "ALL" ∧ county_filter = "ALL") then
    None
  else
    let filtered_branches := locations in
    let area_description : list string := [] in
    let '(filtered_branches, area_description) :=
      if decide (state_filter ≠ "ALL")
      then (filter (λ r, Loc.STNAME r = Some state_filter) filtered_branches,
            area_description ++ [state_filter])
      else (filtered_branches, area_description) in
    let '(filtered_branches, area_description) :=
      if decide (county_filter ≠ "ALL")
      then (filter (λ r, Loc.COUNTY r = Some county_filter) filtered_branches,
            area_description ++ [county_filter +:+ " County"])
      else (filtered_branches, area_description) in
    let inst_counts := groupby_CERT_NAME_size filtered_branches in
    let inst_counts := sort_by_Branches inst_counts in
    let top_institutions := head 20 inst_counts in
    Some {|
      heading := "Institutions Operating in " +:+ String.concat ", " area_description;
      summary := fmt_thousands (length inst_counts) +:+ " institutions with " +:+
                 fmt_thousands (length filtered_branches) +:+ " total branches";
      fig_title := "Top Institutions in " +:+ String.concat ", " area_description +:+
                   " (" +:+ fmt_nat (length inst_counts) +:+ " total)";
      top_institutions := top_institutions
    |}.

(** ** [fetch_fdic_data.py]: [fetch_all_records] *)

(** The remote API is a state-passing function [get]: from the state of the
    world and a request to the new state and the response.  Every call of
    [requests.get] followed by [raise_for_status] and [json] is one call of
    [get].  Printing and sleeping are left out. *)
Module Fetch.

Definition BASE_URL : string := "https://api.fdic.gov/banks".

(** The query parameters; [offset] and [filters] are absent from the dict
    when [None]. *)
Record params := {
  limit : Z;
  offset : option Z;
  fields : string;
  filters : option string
}.

Record request := { url : string; query : params }.

(** The JSON body [{"meta": {"total": n, ...}, "data": [{"data": {...}}, ...]}],
    each key possibly absent. *)
Record body := {
  meta : option (gmap string Z);
  data : option (list (gmap string (gmap string cell)))
}.

(** A response: an HTTP error status, or a body. *)
Inductive response :=
  | HTTPFailure
  | Json (b : body).

Inductive error :=
  | HTTPError
  | KeyError (key : string).

(** How a run ends: with the value returned, with an exception, or still
    looping when the fuel is spent. *)
Inductive outcome (A : Type) :=
  | Done (a : A)
  | Abort (e : error)
  | OutOfFuel.
Arguments Done {A} a.
Arguments Abort {A} e.
Arguments OutOfFuel {A}.

(** The [params] dict of a request. *)
Definition make_params (limit : Z) (offset : option Z) (fields : list string)
    (filters : option string) : params :=
  {| limit := limit;
     offset := offset;
     fields := String.concat "," fields;
     filters := if truthy filters then filters else None |}.

Definition make_request (endpoint : string) (p : params) : request :=
  {| url := BASE_URL +:+ "/" +:+ endpoint; query := p |}.

(** [[item["data"] for item in data["data"]]]. *)
Definition page_records (b : body) : option (list (gmap string cell)) :=
  items ← data b; mapM (λ item : gmap string (gmap string cell), item !! "data") items.

(** The [while offset < total] loop; [log] is the list of exchanges so far. *)
Fixpoint fetch_pages {W} (get : W → request → W * response) (fuel : nat)
    (endpoint : string) (fields : list string) (filters : option string)
    (limit total offset : Z) (all_records : list (gmap string cell))
    (w : W) (log : list (request * response))
    : W * list (request * response) * outcome (list (gmap string cell)) :=
  if decide (offset < total)%Z then
    match fuel with
    | O => (w, log, OutOfFuel)
    | S fuel =>
        let req := make_request endpoint
                     (make_params limit (Some offset) fields filters) in
        let '(w, resp) := get w req in
        let log := log ++ [(req, resp)] in
        match resp with
        | HTTPFailure => (w, log, Abort HTTPError)
        | Json data =>
            match page_records data with
            | None => (w, log, Abort (KeyError "data"))
            | Some records =>
                fetch_pages get fuel endpoint fields filters limit total
                  (offset + limit)%Z (all_records ++ records) w log
            end
        end
    end
  else (w, log, Done all_records).

Definition fetch_all_records {W} (get : W → request → W * response) (fuel : nat)
    (endpoint : string) (fields : list string) (filters : option string)
    (limit : Z) (w : W)
    : W * list (request * response) * outcome (list (gmap string cell)) :=
  let all_records : list (gmap string cell) := [] in
  let offset := 0%Z in
  let req := make_request endpoint (make_params 1 None fields filters) in
  let '(w, resp) := get w req in
  let log := [(req, resp)] in
  match resp with
  | HTTPFailure => (w, log, Abort HTTPError)
  | Json data =>
      match meta data with
      | None => (w, log, Abort (KeyError "meta"))
      | Some meta =>
          match meta !! "total" with
          | None => (w, log, Abort (KeyError "total"))
          | Some total =>
              fetch_pages get fuel endpoint fields filters limit total offset
                all_records w log
          end
      end
  end.

End Fetch.

(** ** Vocabulary of the statements *)

(** A dropdown selector admits a value when it is "ALL" or equal to it. *)
Definition dropdown_ok (selector : string) (v : option string) : Prop :=
  selector = "ALL" ∨ v = Some selector.

(** A chart override admits a value when it is unset (falsy) or equal to it. *)
Definition override_ok (override : option string) (v : option string) : Prop :=
  truthy override = false ∨ v = override.

#[global] Instance dropdown_ok_dec selector v : Decision (dropdown_ok selector v).
Proof. unfold dropdown_ok. apply _. Defined.

#[global] Instance override_ok_dec override v : Decision (override_ok override v).
Proof. unfold override_ok. apply _. Defined.

(** A branch matches a (state, county) pair of dropdown selectors. *)
Definition branch_matches (state county : string) (r : Loc.t) : Prop :=
  dropdown_ok state (Loc.STNAME r) ∧ dropdown_ok county (Loc.COUNTY r).

(** An institution has at least one branch matching (state, county). *)
Definition has_branch_in (locations : list Loc.t) (state county : string)
    (i : Inst.t) : Prop :=
  Exists (λ r, branch_matches state county r ∧ Loc.CERT r = Inst.CERT i) locations.

#[global] Instance has_branch_in_dec locations state county i :
  Decision (has_branch_in locations state county i).
Proof. unfold has_branch_in, branch_matches. apply _. Defined.

(** A click event whose first point carries [v] under [key]. *)
Definition carries (click : option (gmap string (list (gmap string string))))
    (key v : string) : Prop :=
  ∃ d p points, click = Some d ∧ d !! "points" = Some (p :: points) ∧ p !! key = Some v.

(** The filter state with its two overrides replaced. *)
Definition with_overrides (fs : FilterState) (cs cc : option string)
    : FilterState :=
  {| stateSelector := stateSelector fs;
     countySelector := countySelector fs;
     institutionSelector := institutionSelector fs;
     chartStateOverride := cs;
     chartCountyOverride := cc |}.

(** The ids of the [columns] the layout declares for the branch table. *)
Definition branch_table_columns : list string :=
  ["NAME"; "OFFNAME"; "ADDRESS"; "CITY"; "COUNTY"; "STNAME"; "ZIP";
   "SERVTYPE_DESC"; "MAINOFF"; "ESTYMD"].

(** A click dict from which [click["points"][0][key]] cannot be read, with
    the exception the failed subscript raises. *)
Definition malformed (click : gmap string (list (gmap string string)))
    (key : string) (e : exn) : Prop :=
  (click !! "points" = None ∧ e = KeyError "points") ∨
  (click !! "points" = Some [] ∧ e = IndexError) ∨
  (∃ p points, click !! "points" = Some (p :: points) ∧ p !! key = None ∧
               e = KeyError key).

(** The number of page requests for [total] records, [limit] per page. *)
Definition pages_needed (total limit : Z) : nat :=
  Z.to_nat ((total + limit - 1) / limit).

(** The offsets of [n] successive pages from [offset]. *)
Fixpoint page_offsets (n : nat) (offset limit : Z) : list Z :=
  match n with
  | O => []
  | S n => offset :: page_offsets n (offset + limit) limit
  end.

(** The request for the page at [offset]. *)
Definition page_request (endpoint : string) (fields : list string)
    (filters : option string) (limit offset : Z) : Fetch.request :=
  Fetch.make_request endpoint (Fetch.make_params limit (Some offset) fields filters).

(** The first request, which only asks for the total. *)
Definition count_request (endpoint : string) (fields : list string)
    (filters : option string) : Fetch.request :=
  Fetch.make_request endpoint (Fetch.make_params 1 None fields filters).

(** The body with which a server holding [dataset] answers the query [p]:
    the total, and the records from [offset], at most [limit] of them. *)
Definition page_of (dataset : list (gmap string cell)) (p : Fetch.params)
    : Fetch.body :=
  {| Fetch.meta := Some {[ "total" := Z.of_nat (length dataset) ]};
     Fetch.data := Some ((λ r : gmap string cell, {[ "data" := r ]}) <$>
       take (Z.to_nat (Fetch.limit p))
         (drop (Z.to_nat (default 0%Z (Fetch.offset p))) dataset)) |}.

(** A server that holds [dataset] and honours [limit] and [offset]. *)
Definition serves {W} (get : W → Fetch.request → W * Fetch.response)
    (dataset : list (gmap string cell)) : Prop :=
  ∀ w req, ∃ w', get w req = (w', Fetch.Json (page_of dataset (Fetch.query req))).

(** A server that answers every request with a well-formed body announcing
    [total] records. *)
Definition always_answers {W} (get : W → Fetch.request → W * Fetch.response)
    (total : Z) : Prop :=
  ∀ w req, ∃ w' b records,
    get w req = (w', Fetch.Json b) ∧
    Fetch.meta b ≫= (.!! "total") = Some total ∧
    Fetch.page_records b = Some records.

(** The records a response contributes. *)
Definition response_records (resp : Fetch.response) : list (gmap string cell) :=
  match resp with
  | Fetch.Json b => default [] (Fetch.page_records b)
  | Fetch.HTTPFailure => []
  end.

(** A stateless server for the samples. *)
Definition sample_server (dataset : list (gmap string cell)) (w : unit)
    (req : Fetch.request) : unit * Fetch.response :=
  (w, Fetch.Json (page_of dataset (Fetch.query req))).

Definition sample_dataset : list (gmap string cell) :=
  [{[ "CERT" := Num 628 ]}; {[ "CERT" := Num 14 ]}; {[ "CERT" := Num 57 ]}].

(** ** Sample tables *)

Definition branch (cert : string) (county state : option string) : Loc.t :=
  Loc.mk cert (Str "First Bank") (Str "Main") NaN NaN county state
    (Num 77001) NaN (Num 1) NaN None None.

Definition bank (cert name : string) : Inst.t :=
  Inst.mk cert (Some name) NaN NaN NaN NaN NaN NaN.

(** Institution "628" with three branches in TX and one in OK, and an
    orphan branch of certificate "999". *)
Definition sample_locations : list Loc.t :=
  [branch "628" (Some "Harris") (Some "TX");
   branch "628" (Some "Bexar") (Some "TX");
   branch "628" (Some "Harris") (Some "TX");
   branch "628" (Some "Tulsa") (Some "OK");
   branch "999" None (Some "OK")].

Definition sample_institutions : list Inst.t := [bank "628" "First Bank"].


(** A filter state with the state dropdown at "OK" and the county dropdown
    at "ALL"; the institution and the state override are given. *)
Definition sample_state (institution chart_state : option string) : FilterState :=
  {| stateSelector := "OK";
     countySelector := "ALL";
     institutionSelector := institution;
     chartStateOverride := chart_state;
     chartCountyOverride := None |}.

(** * Properties *)

(** ** The order on strings *)

Lemma ascii_compare_refl a : Ascii.compare a a = Eq.
Proof. unfold Ascii.compare. apply N.compare_refl. Qed.

Lemma ascii_compare_lt_trans a b c :
  Ascii.compare a b = Lt → Ascii.compare b c = Lt → Ascii.compare a c = Lt.
Proof.
  unfold Ascii.compare. rewrite !N.compare_lt_iff. apply N.lt_trans.
Qed.

Lemma str_compare_refl a : String.compare a a = Eq.
Proof. induction a as [|x a IH]; simpl; [done|]. by rewrite ascii_compare_refl. Qed.

Lemma str_compare_lt_trans a : ∀ b c,
  String.compare a b = Lt → String.compare b c = Lt → String.compare a c = Lt.
Proof.
  induction a as [|x a IH]; intros [|y b] [|z c]; simpl; try done.
  destruct (Ascii.compare x y) eqn:Hxy; try done.
  - apply Ascii.compare_eq_iff in Hxy as ->.
    destruct (Ascii.compare y z); try done. apply IH.
  - destruct (Ascii.compare y z) eqn:Hyz; try done.
    + apply Ascii.compare_eq_iff in Hyz as <-. by rewrite Hxy.
    + by rewrite (ascii_compare_lt_trans _ _ _ Hxy Hyz).
Qed.

Lemma str_le_alt a b : str_le a b ↔ a = b ∨ String.compare a b = Lt.
Proof.
  unfold str_le, String.leb. split.
  - destruct (String.compare a b) eqn:Hc; try done; [|by right].
    left. by apply String.compare_eq_iff.
  - intros [->| ->]; [|done]. by rewrite str_compare_refl.
Qed.

#[global] Instance str_le_refl : Reflexive str_le.
Proof. intros a. apply str_le_alt. by left. Qed.

#[global] Instance str_le_trans : Transitive str_le.
Proof.
  intros a b c. rewrite !str_le_alt.
  intros [->|Hab] [->|Hbc]; eauto using str_compare_lt_trans.
Qed.

#[global] Instance str_le_total : Total str_le.
Proof. intros a b. apply String.leb_total. Qed.

#[global] Instance str_le_antisym : AntiSymm (=) str_le.
Proof. intros a b. apply String.leb_antisym. Qed.

(** ** Facts about the pandas operations *)

Lemma elem_of_dropna {A} (l : list (option A)) x : x ∈ dropna l ↔ Some x ∈ l.
Proof.
  unfold dropna. rewrite list_elem_of_omap. split.
  - intros (o & Ho & Hx). simpl in Hx. by subst.
  - intros Hx. by exists (Some x).
Qed.

Section unique.
Context `{EqDecision A}.
Implicit Types l : list A.

Lemma elem_of_unique l x : x ∈ unique l ↔ x ∈ l.
Proof.
  induction l as [|y l IH]; simpl; [done|].
  rewrite !elem_of_cons, list_elem_of_filter, IH.
  destruct (decide (x = y)); tauto.
Qed.

Lemma NoDup_unique l : NoDup (unique l).
Proof.
  induction l as [|y l IH]; simpl; [constructor|].
  constructor.
  - rewrite list_elem_of_filter. by intros [Hne _].
  - by apply NoDup_filter.
Qed.
End unique.

Lemma sorted_Permutation l : sorted l ≡ₚ l.
Proof. apply merge_sort_Permutation. Qed.

Lemma sorted_StronglySorted l : StronglySorted str_le (sorted l).
Proof. apply (StronglySorted_merge_sort _). Qed.

Lemma elem_of_sorted l x : x ∈ sorted l ↔ x ∈ l.
Proof. by rewrite sorted_Permutation. Qed.

Lemma sort_values_NAME_Permutation df : sort_values_NAME df ≡ₚ df.
Proof. apply merge_sort_Permutation. Qed.

#[global] Instance name_le_total : Total name_le.
Proof.
  intros a b. unfold name_le.
  destruct (Inst.NAME a) as [x|], (Inst.NAME b) as [y|]; auto.
  apply str_le_total.
Qed.

#[global] Instance name_le_trans : Transitive name_le.
Proof.
  intros a b c. unfold name_le.
  destruct (Inst.NAME a), (Inst.NAME b), (Inst.NAME c); try done.
  apply str_le_trans.
Qed.

Lemma sort_values_NAME_sorted df : StronglySorted name_le (sort_values_NAME df).
Proof. apply (StronglySorted_merge_sort _). Qed.

(** ** The county dropdown *)

(** C2 (as the code has it): [update_county_options] always resets the county
    selector to "ALL" and returns the "ALL" option followed by one option
    per county, the counties being sorted and without duplicates; for a
    state selector other than "ALL" they are exactly the counties of the
    rows of that state, and for "ALL" there are none. *)
Theorem update_county_options_spec (locations : list Loc.t) (s : string) :
  ∃ counties,
    update_county_options locations s =
      (all_counties :: ((λ c, {| label := c; value := c |}) <$> counties), "ALL") ∧
    StronglySorted str_le counties ∧
    NoDup counties ∧
    ∀ c, c ∈ counties ↔
      s ≠ "ALL" ∧ ∃ r, r ∈ locations ∧ Loc.STNAME r = Some s ∧ Loc.COUNTY r = Some c.
Proof.
  unfold update_county_options. destruct (decide (s = "ALL")) as [->|Hs].
  - exists []. split_and!; [done|constructor|constructor|].
    intros c. split; [by intros ?%elem_of_nil | by intros [? _]].
  - eexists. split_and!; [done|apply sorted_StronglySorted|..].
    + rewrite sorted_Permutation. apply NoDup_unique.
    + intros c. rewrite elem_of_sorted, elem_of_unique, elem_of_dropna.
      rewrite list_elem_of_fmap. setoid_rewrite list_elem_of_filter.
      split.
      * intros (r & Hc & Hst & Hr). eauto 10.
      * intros (_ & r & Hr & Hst & Hc). eauto.
Qed.

(** C2 (as stated) fails at "ALL": with one TX branch in Harris county the
    options for "ALL" do not list the counties of the whole table. *)
Lemma update_county_options_ALL_not_full :
  ¬ ∃ counties,
      (update_county_options [branch "628" (Some "Harris") (Some "TX")] "ALL").1 =
        all_counties :: ((λ c, {| label := c; value := c |}) <$> counties) ∧
      ∀ c, c ∈ counties ↔
        ∃ r, r ∈ [branch "628" (Some "Harris") (Some "TX")] ∧ Loc.COUNTY r = Some c.
Proof.
  intros (counties & Heq & Hall). simpl in Heq.
  destruct counties as [|c counties]; [|done].
  destruct (Hall "Harris") as [_ Hin].
  apply (not_elem_of_nil "Harris"), Hin.
  eexists. split; [apply list_elem_of_here|done].
Qed.

(** ** Selections by dropdown and by override *)

Lemma filter_all {A} (P : A → Prop) `{!∀ x, Decision (P x)} (l : list A) :
  (∀ x, P x) → filter P l = l.
Proof.
  intros HP. induction l as [|x l IH]; [done|].
  by rewrite filter_cons_True, IH.
Qed.

(** [if sel != "ALL": df = df[df[col] == sel]] keeps the rows the selector
    admits. *)
Lemma filter_dropdown {A} (col : A → option string) (sel : string) (l : list A) :
  (if decide (sel ≠ "ALL") then filter (λ r, col r = Some sel) l else l) =
  filter (λ r, dropdown_ok sel (col r)) l.
Proof.
  unfold dropdown_ok. destruct (decide (sel ≠ "ALL")) as [Hne|Heq].
  - apply list_filter_iff. intros r. split; [by right|by intros [?|?]].
  - symmetry. apply filter_all. intros r. left. by destruct (decide (sel = "ALL")).
Qed.

(** [if ovr: df = df[df[col] == ovr]] keeps the rows the override admits. *)
Lemma filter_override {A} (col : A → option string) (ovr : option string)
    (l : list A) :
  (if truthy ovr then filter (λ r, col r = ovr) l else l) =
  filter (λ r, override_ok ovr (col r)) l.
Proof.
  destruct (truthy ovr) eqn:Ht.
  - apply list_filter_iff. intros r. unfold override_ok. rewrite Ht.
    split; [by right|by intros [?|?]].
  - symmetry. apply filter_all. intros r. by left.
Qed.

(** ** The institution dropdown *)

Lemma update_institution_options_unfold institutions locations state county :
  update_institution_options institutions locations state county =
  institution_option <$>
    sort_values_NAME (filter (has_branch_in locations state county) institutions).
Proof.
  unfold update_institution_options. cbv zeta.
  rewrite (filter_dropdown Loc.STNAME), (filter_dropdown Loc.COUNTY).
  rewrite list_filter_filter. do 2 f_equal.
  apply list_filter_iff. intros i.
  rewrite elem_of_unique, list_elem_of_fmap.
  unfold has_branch_in. rewrite Exists_exists.
  setoid_rewrite list_elem_of_filter. unfold branch_matches.
  split.
  - intros (r & Hc & [Hco Hst] & Hr). exists r. eauto.
  - intros (r & Hr & [Hst Hco] & Hc). exists r. eauto.
Qed.

(** C7 (as the code has it): the institution options are the institution
    records with at least one branch matching (state, county), "ALL" being
    no constraint, sorted by name and formatted "{name} (CERT: {id})"; the
    result is empty exactly when no institution record has a matching
    branch, hence whenever no branch matches at all. *)
Theorem update_institution_options_spec (institutions : list Inst.t)
    (locations : list Loc.t) (state county : string) :
  (∃ insts,
     update_institution_options institutions locations state county =
       (λ i, {| label := fmt_text (Inst.NAME i) +:+ " (CERT: " +:+ Inst.CERT i +:+ ")";
                value := Inst.CERT i |}) <$> insts ∧
     insts ≡ₚ filter (has_branch_in locations state county) institutions ∧
     StronglySorted name_le insts) ∧
  (update_institution_options institutions locations state county = [] ↔
     ¬ ∃ i r, i ∈ institutions ∧ r ∈ locations ∧
              branch_matches state county r ∧ Loc.CERT r = Inst.CERT i) ∧
  ((¬ ∃ r, r ∈ locations ∧ branch_matches state county r) →
     update_institution_options institutions locations state county = []).
Proof.
  rewrite update_institution_options_unfold.
  assert (Hempty : institution_option <$>
      sort_values_NAME (filter (has_branch_in locations state county) institutions) = [] ↔
      ¬ ∃ i r, i ∈ institutions ∧ r ∈ locations ∧
               branch_matches state county r ∧ Loc.CERT r = Inst.CERT i).
  { split.
    - intros Hnil%fmap_nil_inv (i & r & Hi & Hr & Hm & Hc).
      assert (Hin : i ∈ sort_values_NAME
                (filter (has_branch_in locations state county) institutions)).
      { rewrite sort_values_NAME_Permutation, list_elem_of_filter.
        split; [|done]. apply Exists_exists. eauto. }
      rewrite Hnil in Hin. by apply elem_of_nil in Hin.
    - intros Hno.
      destruct (sort_values_NAME _) as [|i insts] eqn:Hsort; [done|].
      exfalso. apply Hno.
      assert (Hin : i ∈ sort_values_NAME
                (filter (has_branch_in locations state county) institutions)).
      { rewrite Hsort. apply list_elem_of_here. }
      rewrite sort_values_NAME_Permutation, list_elem_of_filter in Hin.
      destruct Hin as [(r & Hr & Hm & Hc)%Exists_exists Hi]. eauto 10. }
  split_and!.
  - eexists. split_and!;
      [done|apply sort_values_NAME_Permutation|apply sort_values_NAME_sorted].
  - done.
  - intros Hno. apply Hempty. intros (i & r & _ & Hr & Hm & _). eauto.
Qed.

(** C7 (as stated) fails on an orphan branch: the branch matches
    ("ALL", "ALL") and yet the result is empty, because no institution
    record carries its certificate. *)
Lemma update_institution_options_orphan :
  ¬ (update_institution_options [] [branch "999" None (Some "OK")] "ALL" "ALL" = [] ↔
     ¬ ∃ r, r ∈ [branch "999" None (Some "OK")] ∧ branch_matches "ALL" "ALL" r).
Proof.
  intros [Hempty _]. apply Hempty; [done|].
  eexists. split; [apply list_elem_of_here|]. split; by left.
Qed.

(** ** The branch table *)

(** The rows of the table when an institution is selected: its branches
    that pass the two dropdowns and the two overrides. *)
Lemma update_branch_table_selected locations cert sf cf cs cc :
  truthy cert = true →
  (update_branch_table locations cert sf cf cs cc).1 =
  to_records (filter (λ r,
    Some (Loc.CERT r) = cert ∧
    dropdown_ok sf (Loc.STNAME r) ∧ dropdown_ok cf (Loc.COUNTY r) ∧
    override_ok cs (Loc.STNAME r) ∧ override_ok cc (Loc.COUNTY r)) locations).
Proof.
  intros Hcert. unfold update_branch_table. rewrite Hcert. simpl negb. cbv iota.
  set (branches := filter (λ r, Some (Loc.CERT r) = cert) locations).
  assert (Hall : filter (λ r,
      Some (Loc.CERT r) = cert ∧
      dropdown_ok sf (Loc.STNAME r) ∧ dropdown_ok cf (Loc.COUNTY r) ∧
      override_ok cs (Loc.STNAME r) ∧ override_ok cc (Loc.COUNTY r)) locations =
    filter (λ r, override_ok cc (Loc.COUNTY r))
      (filter (λ r, override_ok cs (Loc.STNAME r))
        (filter (λ r, dropdown_ok cf (Loc.COUNTY r))
          (filter (λ r, dropdown_ok sf (Loc.STNAME r)) branches)))).
  { unfold branches. rewrite !list_filter_filter.
    apply list_filter_iff. intros r. tauto. }
  rewrite Hall. clear Hall.
  destruct (decide (branches = [])) as [->|Hne]; [done|].
  rewrite (filter_dropdown Loc.STNAME), (filter_dropdown Loc.COUNTY).
  rewrite <- (filter_override Loc.COUNTY cc), <- (filter_override Loc.STNAME cs).
  by destruct (truthy cs), (truthy cc).
Qed.

(** The table when no institution is selected: nothing when both dropdowns
    are "ALL", else the branches that pass the dropdowns. *)
Lemma update_branch_table_unselected locations cert sf cf cs cc :
  truthy cert = false →
  (update_branch_table locations cert sf cf cs cc).1 =
  if decide (sf = "ALL" ∧ cf = "ALL") then []
  else to_records (filter (λ r,
         dropdown_ok sf (Loc.STNAME r) ∧ dropdown_ok cf (Loc.COUNTY r)) locations).
Proof.
  intros Hcert. unfold update_branch_table. rewrite Hcert. simpl negb. cbv iota.
  destruct (decide (sf = "ALL" ∧ cf = "ALL")); [done|].
  assert (Hall : filter (λ r,
      dropdown_ok sf (Loc.STNAME r) ∧ dropdown_ok cf (Loc.COUNTY r)) locations =
    filter (λ r, dropdown_ok cf (Loc.COUNTY r))
      (filter (λ r, dropdown_ok sf (Loc.STNAME r)) locations)).
  { rewrite list_filter_filter. apply list_filter_iff. intros r. tauto. }
  rewrite Hall, <- (filter_dropdown Loc.COUNTY cf), <- (filter_dropdown Loc.STNAME sf).
  by destruct (decide (sf ≠ "ALL")), (decide (cf ≠ "ALL")).
Qed.

Lemma update_branch_table_ignores_overrides locations cert sf cf cs cc cs' cc' :
  truthy cert = false →
  update_branch_table locations cert sf cf cs cc =
  update_branch_table locations cert sf cf cs' cc'.
Proof. intros Hcert. unfold update_branch_table. by rewrite Hcert. Qed.

(** C3: with an institution selected the table rows are exactly that
    institution's branches passing the state dropdown, the county dropdown,
    the chart state override and the chart county override, all four at
    once; with no institution selected the rows are the branches passing
    the two dropdowns only (none when both are "ALL"), and the chart
    overrides change nothing in the output. *)
Theorem branch_table_rows (locations : list Loc.t) (fs : FilterState) :
  (truthy (institutionSelector fs) = true →
     (branch_table_view locations fs).1 =
       to_records (filter (λ r,
         Some (Loc.CERT r) = institutionSelector fs ∧
         dropdown_ok (stateSelector fs) (Loc.STNAME r) ∧
         dropdown_ok (countySelector fs) (Loc.COUNTY r) ∧
         override_ok (chartStateOverride fs) (Loc.STNAME r) ∧
         override_ok (chartCountyOverride fs) (Loc.COUNTY r)) locations)) ∧
  (truthy (institutionSelector fs) = false →
     (branch_table_view locations fs).1 =
       (if decide (stateSelector fs = "ALL" ∧ countySelector fs = "ALL") then []
        else to_records (filter (λ r,
          dropdown_ok (stateSelector fs) (Loc.STNAME r) ∧
          dropdown_ok (countySelector fs) (Loc.COUNTY r)) locations)) ∧
     ∀ cs' cc',
       branch_table_view locations (with_overrides fs cs' cc') =
       branch_table_view locations fs).
Proof.
  unfold branch_table_view. split; intros Hcert.
  - by apply update_branch_table_selected.
  - split; [by apply update_branch_table_unselected|].
    intros cs' cc'. by apply update_branch_table_ignores_overrides.
Qed.

(** On the sample tables: institution "628" under the "OK" dropdown and the
    "OK" override shows its one Oklahoma branch; with no institution the
    override changes nothing. *)
Lemma branch_table_rows_sample :
  (branch_table_view sample_locations (sample_state (Some "628") (Some "OK"))).1 =
    to_records [branch "628" (Some "Tulsa") (Some "OK")] ∧
  branch_table_view sample_locations (sample_state None (Some "OK")) =
    branch_table_view sample_locations (sample_state None None).
Proof.
  split.
  - apply (proj1 (branch_table_rows sample_locations
                    (sample_state (Some "628") (Some "OK")))).
    reflexivity.
  - apply (proj2 (branch_table_rows sample_locations (sample_state None None))
             eq_refl).
Defined.

(** C4: with no institution selected and both dropdowns at "ALL" the table
    has zero rows and shows the prompt. *)
Theorem branch_table_prompt (locations : list Loc.t) (cert : option string)
    (chart_state chart_county : option string) :
  truthy cert = false →
  update_branch_table locations cert "ALL" "ALL" chart_state chart_county =
  ([], "Select a state/county to view all branches, or select an institution").
Proof. intros Hcert. unfold update_branch_table. by rewrite Hcert. Qed.

(** On the sample tables, with a state override left over. *)
Lemma branch_table_prompt_sample :
  update_branch_table sample_locations None "ALL" "ALL" (Some "TX") None =
  ([], "Select a state/county to view all branches, or select an institution").
Proof. apply (branch_table_prompt sample_locations None (Some "TX") None). reflexivity. Defined.

Lemma fillna_not_NaN c : fillna c ≠ NaN.
Proof. by destruct c. Qed.

Lemma to_records_no_NaN df :
  Forall (Forall (λ kv : string * cell, kv.2 ≠ NaN)) (to_records df).
Proof.
  unfold to_records. apply Forall_fmap, Forall_forall. intros r _.
  apply Forall_fmap, Forall_forall. intros [k v] _. apply fillna_not_NaN.
Qed.

(** Every return of [update_branch_table] is [to_records] of a selection of
    rows of [locations]. *)
Lemma update_branch_table_records locations cert sf cf cs cc :
  ∃ df, df `sublist_of` locations ∧
        (update_branch_table locations cert sf cf cs cc).1 = to_records df.
Proof.
  destruct (truthy cert) eqn:Hcert.
  - rewrite update_branch_table_selected by done.
    eexists. split; [|reflexivity]. apply sublist_filter.
  - rewrite update_branch_table_unselected by done.
    destruct (decide _).
    + exists []. split; [apply sublist_nil_l|done].
    + eexists. split; [|reflexivity]. apply sublist_filter.
Qed.

(** C10: no record returned by [update_branch_table] holds a missing value:
    the records are the ten table columns of a selection of location rows,
    each missing cell replaced by the empty string. *)
Theorem branch_table_no_missing (locations : list Loc.t) (cert : option string)
    (state_filter county_filter : string)
    (chart_state chart_county : option string) :
  Forall (Forall (λ kv : string * cell, kv.2 ≠ NaN))
    (update_branch_table locations cert state_filter county_filter
       chart_state chart_county).1 ∧
  ∃ df, df `sublist_of` locations ∧
    (update_branch_table locations cert state_filter county_filter
       chart_state chart_county).1 =
    (λ r, (λ kv : string * cell,
             (kv.1, if decide (kv.2 = NaN) then Str "" else kv.2)) <$> table_columns r)
      <$> df.
Proof.
  destruct (update_branch_table_records locations cert state_filter county_filter
              chart_state chart_county) as (df & Hsub & ->).
  split; [apply to_records_no_NaN|].
  exists df. split; [done|]. unfold to_records.
  apply list_fmap_ext. intros _ r _. apply list_fmap_ext. intros _ [k v] _.
  unfold prod_map. simpl. by destruct v.
Qed.

(** ** The chart-click overrides *)

Lemma carries_clicked click key v :
  carries click key v →
  ∃ d, truthy_click click = Some d ∧ clicked_value d key = Ok v.
Proof.
  intros (d & p & points & -> & Hpoints & Hkey). exists d. split.
  - simpl. destruct (decide (d = ∅)) as [->|]; [|done].
    by rewrite lookup_empty in Hpoints.
  - unfold clicked_value, getitem. rewrite Hpoints. simpl.
    by rewrite Hkey.
Qed.

(** One click of the state bar chart. *)
Lemma state_bar_click v bar pie ds inst cur :
  carries bar "x" v →
  update_chart_state_filter (Some "state-bar-chart") bar pie ds inst cur =
  Ok (if decide (cur = Some v) then None else Some v).
Proof.
  intros (d & Hd & Hv)%carries_clicked. unfold update_chart_state_filter.
  rewrite decide_False by (rewrite !elem_of_cons, elem_of_nil; by intros [|[|]]).
  rewrite decide_True by done. rewrite Hd, Hv. simpl.
  by destruct (decide (cur = Some v)).
Qed.

(** One click of the state pie chart. *)
Lemma state_pie_click v bar pie ds inst cur :
  carries pie "label" v →
  update_chart_state_filter (Some "state-pie-chart") bar pie ds inst cur =
  Ok (if decide (cur = Some v) then None else Some v).
Proof.
  intros (d & Hd & Hv)%carries_clicked. unfold update_chart_state_filter.
  rewrite decide_False by (rewrite !elem_of_cons, elem_of_nil; by intros [|[|]]).
  rewrite decide_False by done. rewrite decide_True by done.
  rewrite Hd, Hv. simpl. by destruct (decide (cur = Some v)).
Qed.

(** One click of the county bar chart. *)
Lemma county_bar_click v county ds dc inst cs cur :
  carries county "y" v →
  update_chart_county_filter (Some "county-bar-chart") county ds dc inst cs cur =
  Ok (if decide (cur = Some v) then None else Some v).
Proof.
  intros (d & Hd & Hv)%carries_clicked. unfold update_chart_county_filter.
  rewrite decide_False by (rewrite !elem_of_cons, elem_of_nil; by intros [|[|[|[|]]]]).
  rewrite decide_True by done. rewrite Hd, Hv. simpl.
  by destruct (decide (cur = Some v)).
Qed.

(** A transition that toggles on [v]: from [set(v)] to unset, from anything
    else to [set(v)], and so back to unset after a second click. *)
Lemma toggle_twice (click : option string → result (option string)) v cur :
  (∀ cur, click cur = Ok (if decide (cur = Some v) then None else Some v)) →
  click (Some v) = Ok None ∧
  (cur ≠ Some v → click cur = Ok (Some v) ∧ (click cur ≫= click) = Ok None).
Proof.
  intros Hclick. split.
  - by rewrite Hclick, decide_True.
  - intros Hne. rewrite !Hclick, decide_False by done. split; [done|].
    simpl. by rewrite Hclick, decide_True.
Qed.

(** C5: for each chart override, a click carrying [v] turns [set(v)] into
    unset and any other override into [set(v)], so two clicks on [v] in a
    row, from an override other than [set(v)], end at unset.  This holds
    for a click on the state bar chart, whatever the pie chart's click data
    (none at all, say), for a click on the state pie chart, whatever the
    bar chart's click data, and for a click on the county bar chart. *)
Theorem chart_click_toggle (v : string)
    (bar pie county : option (gmap string (list (gmap string string))))
    (dropdown_state dropdown_county : string)
    (institution chart_state cur : option string) :
  (carries bar "x" v →
     update_chart_state_filter (Some "state-bar-chart") bar pie
       dropdown_state institution cur =
       Ok (if decide (cur = Some v) then None else Some v) ∧
     (cur ≠ Some v →
        (update_chart_state_filter (Some "state-bar-chart") bar pie
           dropdown_state institution cur ≫=
         update_chart_state_filter (Some "state-bar-chart") bar pie
           dropdown_state institution) = Ok None)) ∧
  (carries pie "label" v →
     update_chart_state_filter (Some "state-pie-chart") bar pie
       dropdown_state institution cur =
       Ok (if decide (cur = Some v) then None else Some v) ∧
     (cur ≠ Some v →
        (update_chart_state_filter (Some "state-pie-chart") bar pie
           dropdown_state institution cur ≫=
         update_chart_state_filter (Some "state-pie-chart") bar pie
           dropdown_state institution) = Ok None)) ∧
  (carries county "y" v →
     update_chart_county_filter (Some "county-bar-chart") county
       dropdown_state dropdown_county institution chart_state cur =
       Ok (if decide (cur = Some v) then None else Some v) ∧
     (cur ≠ Some v →
        (update_chart_county_filter (Some "county-bar-chart") county
           dropdown_state dropdown_county institution chart_state cur ≫=
         update_chart_county_filter (Some "county-bar-chart") county
           dropdown_state dropdown_county institution chart_state) = Ok None)).
Proof.
  split_and!; intros Hclick.
  - split; [by apply state_bar_click|].
    apply (toggle_twice _ v cur). intros cur'. by apply state_bar_click.
  - split; [by apply state_pie_click|].
    apply (toggle_twice _ v cur). intros cur'. by apply state_pie_click.
  - split; [by apply county_bar_click|].
    apply (toggle_twice _ v cur). intros cur'. by apply county_bar_click.
Qed.

(** A first click on the TX bar, the pie chart never clicked: the override
    becomes TX; the same click while the override is TX unsets it. *)
Lemma chart_click_toggle_sample :
  update_chart_state_filter (Some "state-bar-chart")
    (Some {[ "points" := [ {[ "x" := "TX" ]} ] ]}) None
    "ALL" (Some "628") None = Ok (Some "TX") ∧
  update_chart_state_filter (Some "state-bar-chart")
    (Some {[ "points" := [ {[ "x" := "TX" ]} ] ]}) None
    "ALL" (Some "628") (Some "TX") = Ok None.
Proof.
  split.
  - refine (proj1 (proj1 (chart_click_toggle "TX"
      (Some {[ "points" := [ {[ "x" := "TX" ]} ] ]}) None None
      "ALL" "ALL" (Some "628") None None) _)).
    eexists _, _, _; split_and!; reflexivity.
  - refine (proj1 (proj1 (chart_click_toggle "TX"
      (Some {[ "points" := [ {[ "x" := "TX" ]} ] ]}) None None
      "ALL" "ALL" (Some "628") None (Some "TX")) _)).
    eexists _, _, _; split_and!; reflexivity.
Defined.

(** C6: a change of the state dropdown or of the institution dropdown
    unsets the state override; a change of the state dropdown, the county
    dropdown, the institution dropdown or the state override unsets the
    county override; so a change of the state dropdown unsets both. *)
Theorem upstream_change_unsets
    (bar pie county : option (gmap string (list (gmap string string))))
    (dropdown_state dropdown_county : string)
    (institution chart_state current_state current_county : option string) :
  Forall (λ id, update_chart_state_filter (Some id) bar pie
                  dropdown_state institution current_state = Ok None)
    ["state-filter"; "institution-dropdown"] ∧
  Forall (λ id, update_chart_county_filter (Some id) county
                  dropdown_state dropdown_county institution chart_state
                  current_county = Ok None)
    ["state-filter"; "county-filter"; "institution-dropdown"; "chart-state-filter"].
Proof.
  split; repeat apply Forall_cons_2; try apply Forall_nil_2.
  all: unfold update_chart_state_filter, update_chart_county_filter.
  all: apply decide_True; rewrite !elem_of_cons; tauto.
Qed.

(** ** The county chart *)

Lemma insert_by_count_Permutation x l : insert_by_count x l ≡ₚ x :: l.
Proof.
  induction l as [|y l IH]; simpl; [done|].
  destruct (decide (count_ge x y)); [done|].
  by rewrite IH, Permutation_swap.
Qed.

Lemma sort_by_count_Permutation l : sort_by_count l ≡ₚ l.
Proof.
  induction l as [|x l IH]; simpl; [done|].
  by rewrite insert_by_count_Permutation, IH.
Qed.

Lemma elem_of_value_counts col c n :
  (c, n) ∈ value_counts col →
  Some c ∈ col ∧ n = length (filter (λ x, x = c) (dropna col)).
Proof.
  unfold value_counts. rewrite sort_by_count_Permutation, list_elem_of_fmap.
  intros (v & [= -> ->] & Hv%elem_of_unique%elem_of_dropna). done.
Qed.

(** The effective state of the county chart. *)
Lemma active_state_filter_override sf cs :
  truthy cs = true → active_state_filter sf cs = cs.
Proof. intros Hcs. unfold active_state_filter. by rewrite Hcs. Qed.

Lemma active_state_filter_dropdown sf cs :
  truthy cs = false →
  active_state_filter sf cs = if decide (sf = "ALL") then None else Some sf.
Proof.
  intros Hcs. unfold active_state_filter. rewrite Hcs.
  by destruct (decide (sf = "ALL")), (decide (sf ≠ "ALL")).
Qed.

(** The chart is a function of the institution's branches and the effective
    state alone. *)
Lemma update_county_chart_active locations cert sf cs sf' cs' :
  active_state_filter sf cs = active_state_filter sf' cs' →
  update_county_chart locations cert sf cs =
  update_county_chart locations cert sf' cs'.
Proof. intros Heq. unfold update_county_chart. by rewrite Heq. Qed.

(** C9: the county chart does not depend on the county dropdown or on the
    county override: two filter states that agree on the institution, the
    state dropdown and the state override give the same chart. *)
Theorem county_chart_ignores_county (locations : list Loc.t)
    (fs1 fs2 : FilterState) :
  institutionSelector fs1 = institutionSelector fs2 →
  stateSelector fs1 = stateSelector fs2 →
  chartStateOverride fs1 = chartStateOverride fs2 →
  county_chart_view locations fs1 = county_chart_view locations fs2.
Proof. unfold county_chart_view. by intros -> -> ->. Qed.

(** On the sample tables: a county selection and a county override leave
    the chart as it is. *)
Lemma county_chart_ignores_county_sample :
  county_chart_view sample_locations
    {| stateSelector := "TX"; countySelector := "ALL";
       institutionSelector := Some "628";
       chartStateOverride := None; chartCountyOverride := None |} =
  county_chart_view sample_locations
    {| stateSelector := "TX"; countySelector := "Harris";
       institutionSelector := Some "628";
       chartStateOverride := None; chartCountyOverride := Some "Bexar" |}.
Proof. apply county_chart_ignores_county; reflexivity. Defined.

(** ** The institution card *)

(** A selected certificate that no institution record carries makes
    [update_dashboard] fail at [.iloc[0]]. *)
Lemma update_dashboard_unmatched institutions locations cert sf cf :
  truthy cert = true →
  Forall (λ i, Some (Inst.CERT i) ≠ cert) institutions →
  update_dashboard institutions locations cert sf cf = Raise IndexError.
Proof.
  intros Hcert Hno. unfold update_dashboard. rewrite Hcert. simpl negb. cbv iota.
  assert (filter (λ i, Some (Inst.CERT i) = cert) institutions = []) as ->; [|done].
  induction Hno as [|i l Hi Hl IH]; [done|].
  by rewrite filter_cons_False.
Qed.


(** C1 (the code departs from it): the orphan certificate "999" of the
    sample tables, which no institution record carries, makes
    [update_dashboard] raise IndexError, where the branch table and the
    county chart computed for the same certificate return normally. *)
Theorem update_dashboard_orphan_raises :
  update_dashboard sample_institutions sample_locations (Some "999") "ALL" "ALL" =
    Raise IndexError ∧
  update_branch_table sample_locations (Some "999") "ALL" "ALL" None None =
    (to_records [branch "999" None (Some "OK")],
     "Click on a state or county chart to filter") ∧
  update_branch_table sample_locations (Some "1000") "ALL" "ALL" None None = ([], "") ∧
  update_county_chart sample_locations (Some "1000") "ALL" None = EmptyCounty None.
Proof.
  split; [|by vm_compute].
  apply update_dashboard_unmatched; [done|].
  repeat constructor. done.
Qed.

(** * Further properties of the callbacks *)

Lemma filter_not_nil {A} (P : A → Prop) `{!∀ x, Decision (P x)} (l : list A) x :
  x ∈ l → P x → filter P l ≠ [].
Proof.
  intros Hx HP Hnil.
  assert (Hin : x ∈ filter P l) by by apply list_elem_of_filter.
  rewrite Hnil in Hin. by apply elem_of_nil in Hin.
Qed.

Lemma filter_none {A} (P : A → Prop) `{!∀ x, Decision (P x)} (l : list A) :
  (∀ x, x ∈ l → ¬ P x) → filter P l = [].
Proof.
  intros HP. destruct (filter P l) as [|x k] eqn:Hf; [done|].
  assert (Hin : x ∈ filter P l) by (rewrite Hf; apply list_elem_of_here).
  apply list_elem_of_filter in Hin as [Hx Hin]. by destruct (HP x).
Qed.

Lemma filter_all_in {A} (P : A → Prop) `{!∀ x, Decision (P x)} (l : list A) :
  (∀ x, x ∈ l → P x) → filter P l = l.
Proof.
  induction l as [|x l IH]; intros HP; [done|].
  rewrite filter_cons_True by (apply HP, list_elem_of_here).
  rewrite IH; [done|]. intros y Hy. by apply HP, list_elem_of_further.
Qed.

(** ** The state dropdown *)

(** X1: the states offered by the state dropdown are sorted and distinct, they
    are exactly the states some branch lies in, and choosing one of them
    (with no institution selected) never leaves the branch table empty. *)
Theorem all_states_spec (locations : list Loc.t) :
  StronglySorted str_le (all_states locations) ∧
  NoDup (all_states locations) ∧
  (∀ s, s ∈ all_states locations ↔ ∃ r, r ∈ locations ∧ Loc.STNAME r = Some s) ∧
  (∀ s cert cs cc,
     s ∈ all_states locations → s ≠ "ALL" → truthy cert = false →
     (update_branch_table locations cert s "ALL" cs cc).1 ≠ []).
Proof.
  assert (Hin : ∀ s, s ∈ all_states locations ↔
                     ∃ r, r ∈ locations ∧ Loc.STNAME r = Some s).
  { intros s. unfold all_states.
    rewrite elem_of_sorted, elem_of_unique, elem_of_dropna, list_elem_of_fmap.
    split; intros (r & H1 & H2); eauto. }
  unfold all_states at 1 2. split_and!.
  - apply sorted_StronglySorted.
  - rewrite sorted_Permutation. apply NoDup_unique.
  - done.
  - intros s cert cs cc (r & Hr & Hst)%Hin Hs Hcert.
    rewrite update_branch_table_unselected by done.
    rewrite decide_False by (by intros [? _]).
    intros Hnil%fmap_nil_inv. revert Hnil.
    apply (filter_not_nil _ _ r); [done|]. split; [by right|by left].
Qed.

Lemma all_states_sample :
  (update_branch_table sample_locations None "TX" "ALL" None None).1 ≠ [].
Proof.
  apply (proj2 (proj2 (proj2 (all_states_spec sample_locations)))).
  - vm_compute. apply list_elem_of_further, list_elem_of_here.
  - done.
  - reflexivity.
Defined.

(** ** The county dropdown and the table *)

(** X2: every county offered for a state other than "ALL" has at least one
    branch: with no institution selected, the branch table for that state
    and that county is not empty. *)
Theorem county_option_has_branches (locations : list Loc.t) (s : string)
    (o : dd_option) (cert cs cc : option string) :
  s ≠ "ALL" →
  o ∈ (update_county_options locations s).1 →
  o ≠ all_counties →
  truthy cert = false →
  (update_branch_table locations cert s (value o) cs cc).1 ≠ [].
Proof.
  intros Hs Ho Hall Hcert.
  unfold update_county_options in Ho. rewrite decide_False in Ho by done.
  simpl in Ho. apply elem_of_cons in Ho as [?|Ho]; [done|].
  apply list_elem_of_fmap in Ho as (c & -> & Hc). simpl.
  rewrite elem_of_sorted, elem_of_unique, elem_of_dropna in Hc.
  apply list_elem_of_fmap in Hc as (r & Hco & [Hst Hr]%list_elem_of_filter).
  rewrite update_branch_table_unselected by done.
  rewrite decide_False by (by intros [? _]).
  intros Hnil%fmap_nil_inv. revert Hnil.
  apply (filter_not_nil _ _ r); [done|]. split; by right.
Qed.

Lemma county_option_has_branches_sample :
  (update_branch_table sample_locations None "TX" "Bexar" None None).1 ≠ [].
Proof.
  apply (county_option_has_branches sample_locations "TX"
           {| label := "Bexar"; value := "Bexar" |} None None None).
  - done.
  - vm_compute. apply list_elem_of_further, list_elem_of_here.
  - done.
  - reflexivity.
Defined.

(** ** The institution dropdown and the institution card *)

Lemma elem_of_update_institution_options institutions locations state county o :
  o ∈ update_institution_options institutions locations state county ↔
  ∃ i, o = institution_option i ∧ i ∈ institutions ∧
       has_branch_in locations state county i.
Proof.
  rewrite update_institution_options_unfold, list_elem_of_fmap.
  setoid_rewrite sort_values_NAME_Permutation.
  setoid_rewrite list_elem_of_filter.
  split; intros (i & Ho & H1 & H2); eauto.
Qed.

(** X3: the callback only ever narrows the options the dropdown starts with:
    each option it returns is one of the initial options, and for
    ("ALL", "ALL") it returns all of them when every institution has a
    branch. *)
Theorem institution_options_narrowed (institutions : list Inst.t)
    (locations : list Loc.t) (state county : string) :
  (∀ o, o ∈ update_institution_options institutions locations state county →
        o ∈ institution_options institutions) ∧
  ((∀ i, i ∈ institutions → ∃ r, r ∈ locations ∧ Loc.CERT r = Inst.CERT i) →
   update_institution_options institutions locations "ALL" "ALL" =
   institution_options institutions).
Proof.
  split.
  - intros o (i & -> & Hi & _)%elem_of_update_institution_options.
    unfold institution_options. apply list_elem_of_fmap. exists i.
    by rewrite sort_values_NAME_Permutation.
  - intros Hall. rewrite update_institution_options_unfold.
    unfold institution_options. do 2 f_equal.
    apply filter_all_in. intros i (r & Hr & Hc)%Hall.
    apply Exists_exists. exists r. split; [done|].
    split; [|done]. split; by left.
Qed.

Lemma institution_options_narrowed_sample :
  update_institution_options sample_institutions sample_locations "ALL" "ALL" =
  institution_options sample_institutions.
Proof.
  apply (proj2 (institution_options_narrowed sample_institutions sample_locations
                  "ALL" "ALL")).
  intros i ->%list_elem_of_singleton.
  eexists. split; [apply list_elem_of_here|reflexivity].
Defined.





(** ** Aggregates by count *)

Lemma insert_by_count_sorted x l :
  StronglySorted count_ge l → StronglySorted count_ge (insert_by_count x l).
Proof.
  induction 1 as [|y l Hl IH Hy]; simpl.
  - repeat constructor.
  - destruct (decide (count_ge x y)) as [Hxy|Hxy].
    + constructor; [by constructor|]. constructor; [done|].
      eapply Forall_impl; [done|]. unfold count_ge in *. simpl. lia.
    + constructor; [done|]. rewrite insert_by_count_Permutation.
      constructor; [|done]. unfold count_ge in *. lia.
Qed.

Lemma sort_by_count_sorted l : StronglySorted count_ge (sort_by_count l).
Proof.
  induction l as [|x l IH]; simpl; [constructor|].
  by apply insert_by_count_sorted.
Qed.

Lemma length_head {A} n (l : list A) : length (head n l) = min n (length l).
Proof. apply length_take. Qed.

Lemma StronglySorted_take {A} (R : relation A) n l :
  StronglySorted R l → StronglySorted R (take n l).
Proof.
  intros Hl. revert n. induction Hl as [|x l Hl IH Hx]; intros [|n]; simpl;
    try constructor; [done|].
  eapply Forall_forall. intros y Hy%subseteq_take.
  by eapply Forall_forall in Hx.
Qed.

(** Counting a value in a column after [dropna] is counting the rows that
    hold it. *)
Lemma dropna_cons {A} (o : option A) l :
  dropna (o :: l) = match o with Some x => x :: dropna l | None => dropna l end.
Proof. by destruct o. Qed.

Lemma count_dropna_fmap {A} (f : A → option string) v (l : list A) :
  length (filter (λ x, x = v) (dropna (f <$> l))) =
  length (filter (λ r, f r = Some v) l).
Proof.
  induction l as [|r l IH]; [done|].
  rewrite fmap_cons, dropna_cons, (filter_cons (λ r, f r = Some v)).
  destruct (f r) as [x|] eqn:Hf.
  - rewrite filter_cons. destruct (decide (x = v)) as [->|Hne].
    + rewrite decide_True by done. simpl. by rewrite IH.
    + by rewrite decide_False by congruence.
  - by rewrite decide_False by done.
Qed.

Lemma value_counts_keys col : (value_counts col).*1 ≡ₚ unique (dropna col).
Proof.
  unfold value_counts. rewrite sort_by_count_Permutation.
  rewrite <- list_fmap_compose.
  by rewrite <- (list_fmap_id (unique (dropna col))) at 2.
Qed.

(** The first [n] rows of [value_counts] of a column [f] of a frame: at most
    [n], by descending count, one per value, each with the number of rows
    holding the value. *)
Lemma head_value_counts {A} (f : A → option string) (l : list A) n :
  (length (head n (value_counts (f <$> l))) ≤ n)%nat ∧
  StronglySorted count_ge (head n (value_counts (f <$> l))) ∧
  NoDup (head n (value_counts (f <$> l))).*1 ∧
  ∀ v k, (v, k) ∈ head n (value_counts (f <$> l)) →
         (1 ≤ k)%nat ∧ k = length (filter (λ r, f r = Some v) l).
Proof.
  unfold head. split_and!.
  - rewrite length_take. lia.
  - apply StronglySorted_take, sort_by_count_sorted.
  - rewrite fmap_take. eapply sublist_NoDup; [|apply sublist_take].
    rewrite value_counts_keys. apply NoDup_unique.
  - intros v k [Hin ->]%subseteq_take%elem_of_value_counts.
    rewrite count_dropna_fmap. split; [|done].
    apply list_elem_of_fmap in Hin as (r & Hv & Hr).
    assert (Hin : r ∈ filter (λ r, f r = Some v) l)
      by by apply list_elem_of_filter.
    destruct (filter _ l); [by apply elem_of_nil in Hin|simpl; lia].
Qed.

(** ** The state charts and the map *)





(** ** More on the county chart *)

(** The effective state, written out. *)
Lemma active_state_filter_explicit sf cs :
  active_state_filter sf cs =
  if truthy cs then cs else if decide (sf = "ALL") then None else Some sf.
Proof.
  unfold active_state_filter. destruct (truthy cs); [done|].
  by destruct (decide (sf = "ALL")), (decide (sf ≠ "ALL")).
Qed.

(** The chart of a selected institution, as a function of its branches in
    the effective state. *)
Lemma update_county_chart_selected locations cert sf cs :
  truthy cert = true →
  update_county_chart locations cert sf cs =
  if decide (filter (λ r, Some (Loc.CERT r) = cert) locations = []) then
    EmptyCounty None
  else if decide (filter (λ r, Some (Loc.CERT r) = cert ∧
                override_ok (active_state_filter sf cs) (Loc.STNAME r))
              locations = []) then
    EmptyCounty (Some ("No branches in " +:+ py_str (active_state_filter sf cs)))
  else
    CountyBar
      (if truthy (active_state_filter sf cs)
       then "Branches by County (" +:+ py_str (active_state_filter sf cs) +:+ ")"
       else "Branches by County (All States)")
      (head 15 (value_counts (Loc.COUNTY <$>
         filter (λ r, Some (Loc.CERT r) = cert ∧
                      override_ok (active_state_filter sf cs) (Loc.STNAME r))
           locations))).
Proof.
  intros Hcert. unfold update_county_chart. rewrite Hcert. simpl negb. cbv iota.
  set (branches := filter (λ r, Some (Loc.CERT r) = cert) locations).
  set (active := active_state_filter sf cs).
  destruct (decide (branches = [])) as [|Hne]; [done|].
  assert (Hin : filter (λ r, Some (Loc.CERT r) = cert ∧
                             override_ok active (Loc.STNAME r)) locations =
                filter (λ r, override_ok active (Loc.STNAME r)) branches).
  { unfold branches. rewrite list_filter_filter.
    apply list_filter_iff. intros r. tauto. }
  rewrite Hin, <- (filter_override Loc.STNAME active branches).
  by destruct (truthy active).
Qed.

(** C8: the county chart is computed from the selected institution's
    branches in the effective state, which is the chart state override when
    that is set and otherwise the state dropdown unless it is "ALL" (then
    there is none and every branch counts).  When the override is set the
    dropdown is ignored.  When some branch lies in the effective state the
    chart is a bar chart titled after that state, whose bars are at most
    fifteen, by descending count, one per county, each with the number of
    those branches in the county, no county being left out when there are
    fewer than fifteen bars; when none does, the chart is the placeholder,
    with the note "No branches in <state>" if the institution has branches
    elsewhere. *)
Theorem county_chart_effective_state (locations : list Loc.t)
    (cert : option string) (state_filter : string)
    (chart_state_filter : option string) :
  let effective : option string :=
    if truthy chart_state_filter then chart_state_filter
    else if decide (state_filter = "ALL") then None else Some state_filter in
  let in_state : list Loc.t :=
    filter (λ r, Some (Loc.CERT r) = cert ∧
                 (truthy effective = false ∨ Loc.STNAME r = effective)) locations in
  (truthy chart_state_filter = true →
     ∀ state_filter',
       update_county_chart locations cert state_filter' chart_state_filter =
       update_county_chart locations cert state_filter chart_state_filter) ∧
  (truthy cert = true → in_state ≠ [] →
     ∃ bars,
       update_county_chart locations cert state_filter chart_state_filter =
         CountyBar
           (if truthy effective
            then "Branches by County (" +:+ py_str effective +:+ ")"
            else "Branches by County (All States)") bars ∧
       (length bars ≤ 15)%nat ∧
       StronglySorted count_ge bars ∧
       NoDup bars.*1 ∧
       (∀ c k, (c, k) ∈ bars →
          (1 ≤ k)%nat ∧
          k = length (filter (λ r, Loc.COUNTY r = Some c) in_state)) ∧
       ((length bars < 15)%nat →
          ∀ r c, r ∈ in_state → Loc.COUNTY r = Some c → c ∈ bars.*1)) ∧
  (truthy cert = true → in_state = [] →
     update_county_chart locations cert state_filter chart_state_filter =
       EmptyCounty
         (if decide (filter (λ r, Some (Loc.CERT r) = cert) locations = [])
          then None
          else Some ("No branches in " +:+ py_str effective))) ∧
  (truthy cert = false →
     update_county_chart locations cert state_filter chart_state_filter =
       EmptyCounty None).
Proof.
  intros effective in_state.
  assert (Heff : active_state_filter state_filter chart_state_filter = effective)
    by apply active_state_filter_explicit.
  assert (Hchart : truthy cert = true →
    update_county_chart locations cert state_filter chart_state_filter =
    if decide (filter (λ r, Some (Loc.CERT r) = cert) locations = []) then
      EmptyCounty None
    else if decide (in_state = []) then
      EmptyCounty (Some ("No branches in " +:+ py_str effective))
    else
      CountyBar
        (if truthy effective
         then "Branches by County (" +:+ py_str effective +:+ ")"
         else "Branches by County (All States)")
        (head 15 (value_counts (Loc.COUNTY <$> in_state)))).
  { intros Hcert. rewrite update_county_chart_selected, Heff by done. done. }
  assert (Hsub : filter (λ r, Some (Loc.CERT r) = cert) locations = [] →
                 in_state = []).
  { intros Hnil. apply filter_none. intros r Hr [Hc _]. revert Hnil.
    by apply (filter_not_nil _ _ r). }
  split_and!.
  - intros Hcs sf'. apply update_county_chart_active.
    by rewrite !active_state_filter_override.
  - intros Hcert Hne. rewrite Hchart by done.
    rewrite decide_False by (intros Hnil; by apply Hne, Hsub).
    rewrite decide_False by done.
    destruct (head_value_counts Loc.COUNTY in_state 15)
      as (Hlen & Hsorted & Hnodup & Hcount).
    eexists. split_and!; [done..|].
    intros Hlt r c Hr Hc. rewrite length_head in Hlt.
    unfold head. rewrite take_ge by lia.
    rewrite value_counts_keys, elem_of_unique, elem_of_dropna, list_elem_of_fmap.
    eauto.
  - intros Hcert Hnil. rewrite Hchart by done.
    destruct (decide (filter _ locations = [])); [done|].
    by rewrite decide_True.
  - intros Hcert. unfold update_county_chart. by rewrite Hcert.
Qed.

(** On the sample tables, institution "628": under the "OK" override the
    "TX" dropdown is ignored and the chart counts the one Oklahoma branch;
    with no override the "TX" dropdown makes the chart count the three
    Texas branches; under an "AK" override the chart is the placeholder. *)
Lemma county_chart_effective_state_sample :
  update_county_chart sample_locations (Some "628") "TX" (Some "OK") =
    update_county_chart sample_locations (Some "628") "ALL" (Some "OK") ∧
  (∃ bars,
     update_county_chart sample_locations (Some "628") "TX" None =
       CountyBar "Branches by County (TX)" bars ∧
     (length bars ≤ 15)%nat ∧ StronglySorted count_ge bars ∧ NoDup bars.*1 ∧
     (∀ c k, (c, k) ∈ bars →
        (1 ≤ k)%nat ∧
        k = length (filter (λ r, Loc.COUNTY r = Some c)
              (filter (λ r, Some (Loc.CERT r) = Some "628" ∧
                            (truthy (Some "TX") = false ∨
                             Loc.STNAME r = Some "TX")) sample_locations))) ∧
     ((length bars < 15)%nat →
        ∀ r c,
          r ∈ filter (λ r, Some (Loc.CERT r) = Some "628" ∧
                           (truthy (Some "TX") = false ∨
                            Loc.STNAME r = Some "TX")) sample_locations →
          Loc.COUNTY r = Some c → c ∈ bars.*1)) ∧
  update_county_chart sample_locations (Some "628") "TX" (Some "AK") =
    EmptyCounty (Some "No branches in AK").
Proof.
  split_and!.
  - apply (proj1 (county_chart_effective_state sample_locations (Some "628")
                    "ALL" (Some "OK"))).
    reflexivity.
  - apply (proj1 (proj2 (county_chart_effective_state sample_locations
                           (Some "628") "TX" None))); [reflexivity|done].
  - apply (proj1 (proj2 (proj2 (county_chart_effective_state sample_locations
                                  (Some "628") "TX" (Some "AK")))));
      reflexivity.
Defined.

(** X8: the bars of the county chart: at most fifteen, by descending count, one
    per county, each with the number of the institution's branches in that
    county (within the effective state, when there is one). *)
Theorem county_chart_bars (locations : list Loc.t) (cert : option string)
    (state_filter : string) (chart_state_filter : option string)
    (title : string) (bars : list (string * nat)) :
  update_county_chart locations cert state_filter chart_state_filter =
    CountyBar title bars →
  (length bars ≤ 15)%nat ∧ StronglySorted count_ge bars ∧ NoDup bars.*1 ∧
  ∀ c k, (c, k) ∈ bars →
    (1 ≤ k)%nat ∧
    k = length (filter (λ r,
          Some (Loc.CERT r) = cert ∧
          override_ok (active_state_filter state_filter chart_state_filter)
            (Loc.STNAME r) ∧
          Loc.COUNTY r = Some c) locations).
Proof.
  unfold update_county_chart. destruct (negb (truthy cert)); [done|].
  set (branches := filter (λ r, Some (Loc.CERT r) = cert) locations).
  destruct (decide (branches = [])); [done|].
  set (active := active_state_filter state_filter chart_state_filter).
  pose proof (filter_override Loc.STNAME active branches) as Hdata.
  set (county_data := filter (λ r, override_ok active (Loc.STNAME r)) branches)
    in Hdata.
  intros Heq.
  assert (bars = head 15 (value_counts (Loc.COUNTY <$> county_data))) as ->.
  { revert Heq. destruct (truthy active).
    - rewrite Hdata. destruct (decide _); [done|]. by intros [= _ <-].
    - rewrite <- Hdata. destruct (decide _); [done|]. by intros [= _ <-]. }
  destruct (head_value_counts Loc.COUNTY county_data 15)
    as (Hlen & Hsorted & Hnodup & Hcount).
  split_and!; [done..|].
  intros c k [Hk ->]%Hcount. split; [done|].
  unfold county_data, branches. rewrite !list_filter_filter. f_equal.
  apply list_filter_iff. intros r. tauto.
Qed.

Lemma county_chart_bars_sample :
  (2 : nat) = length (filter (λ r,
          Some (Loc.CERT r) = Some "628" ∧
          override_ok (active_state_filter "TX" None) (Loc.STNAME r) ∧
          Loc.COUNTY r = Some "Harris") sample_locations).
Proof.
  pose proof (county_chart_bars sample_locations (Some "628") "TX" None
    "Branches by County (TX)" [("Harris", 2%nat); ("Bexar", 1%nat)] eq_refl)
    as (_ & _ & _ & H).
  exact (proj2 (H "Harris" 2%nat (list_elem_of_here _ _))).
Defined.

(** X9: clicking a state bar gives the same county chart as choosing that state
    in the dropdown: for a non-empty [v] other than "ALL", the chart under
    the override [v] (whatever the dropdown says) is the chart under the
    dropdown [v] with no override. *)
Theorem county_chart_click_as_dropdown (locations : list Loc.t)
    (cert : option string) (state_filter v : string) :
  v ≠ "" → v ≠ "ALL" →
  update_county_chart locations cert state_filter (Some v) =
  update_county_chart locations cert v None.
Proof.
  intros Hne Hall. apply update_county_chart_active.
  rewrite active_state_filter_override, active_state_filter_dropdown by
    (simpl; by destruct (String.eqb_spec v "")).
  by rewrite decide_False.
Qed.

Lemma county_chart_click_as_dropdown_sample :
  update_county_chart sample_locations (Some "628") "TX" (Some "OK") =
  update_county_chart sample_locations (Some "628") "OK" None.
Proof. by apply county_chart_click_as_dropdown. Defined.

(** X10: the county chart is a bare placeholder exactly when no institution is
    selected or the selected one has no branch, and it carries the note
    "No branches in <state>" exactly when the institution has branches but
    none in the effective state. *)
Theorem county_chart_placeholder (locations : list Loc.t) (cert : option string)
    (state_filter : string) (chart_state_filter : option string)
    (annotation : option string) :
  update_county_chart locations cert state_filter chart_state_filter =
    EmptyCounty annotation ↔
  (annotation = None ∧
   (truthy cert = false ∨ Forall (λ r, Some (Loc.CERT r) ≠ cert) locations)) ∨
  (∃ st, annotation = Some ("No branches in " +:+ st) ∧
         truthy cert = true ∧ st ≠ "" ∧
         active_state_filter state_filter chart_state_filter = Some st ∧
         Exists (λ r, Some (Loc.CERT r) = cert) locations ∧
         Forall (λ r, Some (Loc.CERT r) = cert → Loc.STNAME r ≠ Some st) locations).
Proof.
  unfold update_county_chart.
  set (branches := filter (λ r, Some (Loc.CERT r) = cert) locations).
  set (active := active_state_filter state_filter chart_state_filter).
  assert (Hbr : branches = [] ↔ Forall (λ r, Some (Loc.CERT r) ≠ cert) locations).
  { split.
    - intros Hnil. apply Forall_forall. intros r Hr Hc. revert Hnil.
      by apply (filter_not_nil _ _ r).
    - intros Hno. apply filter_none. by apply Forall_forall. }
  assert (Hdata : ∀ st, filter (λ r, Loc.STNAME r = Some st) branches = [] ↔
            Forall (λ r, Some (Loc.CERT r) = cert → Loc.STNAME r ≠ Some st) locations).
  { intros st. split.
    - intros Hnil. apply Forall_forall. intros r Hr Hc Hst. revert Hnil.
      apply (filter_not_nil _ _ r); [|done]. by apply list_elem_of_filter.
    - intros Hno. apply filter_none. intros r [Hc Hr]%list_elem_of_filter.
      by apply (proj1 (Forall_forall _ _) Hno). }
  destruct (truthy cert) eqn:Hcert; simpl negb; cbv iota.
  2:{ split; [intros [= <-]; left; auto|].
      intros [[-> _]|(st & _ & [=] & _)]. done. }
  destruct (decide (branches = [])) as [Hnil|Hne].
  { split; [intros [= <-]; left; split; [done|right; by apply Hbr]|].
    intros [[-> _]|(st & _ & _ & _ & _ & Hex & _)]; [done|].
    apply Exists_exists in Hex as (r & Hr & Hc).
    apply Hbr in Hnil. rewrite Forall_forall in Hnil. by destruct (Hnil r Hr). }
  assert (Hex : Exists (λ r, Some (Loc.CERT r) = cert) locations).
  { destruct branches as [|r br] eqn:Hf; [done|].
    assert (Hr : r ∈ filter (λ r, Some (Loc.CERT r) = cert) locations)
      by (fold branches; rewrite Hf; apply list_elem_of_here).
    apply list_elem_of_filter in Hr as [Hc Hr]. apply Exists_exists. eauto. }
  destruct active as [st|] eqn:Hactive; simpl truthy.
  - destruct (String.eqb_spec st "") as [->|Hst]; simpl negb; cbv iota.
    + rewrite decide_False by done. split; [done|].
      intros [[_ [[=]|Hno%Hbr]]|(st & _ & _ & Hst & [= <-] & _)]; done.
    + destruct (decide (filter _ branches = [])) as [Hd|Hd].
      * split.
        -- intros [= <-]. right. exists st. split_and!; try done. by apply Hdata.
        -- intros [[_ [[=]|Hno%Hbr]]|(st' & -> & _ & _ & [= <-] & _)]; done.
      * split; [done|].
        intros [[_ [[=]|Hno%Hbr]]|(st' & _ & _ & _ & [= <-] & _ & Hno%Hdata)]; done.
  - cbv iota. rewrite decide_False by done. split; [done|].
    intros [[_ [[=]|Hno%Hbr]]|(st & _ & _ & _ & [=] & _)]; done.
Qed.

(** ** More on the branch table *)

(** X11: with an institution selected, a chart override that disagrees with the
    dropdown of the same level empties the table: the two are combined by
    AND, the override does not replace the dropdown. *)
Theorem branch_table_conflict (locations : list Loc.t) (cert : option string)
    (state_filter county_filter : string)
    (chart_state chart_county : option string) (t : string) :
  truthy cert = true → t ≠ "" →
  (state_filter ≠ "ALL" ∧ chart_state = Some t ∧ t ≠ state_filter) ∨
  (county_filter ≠ "ALL" ∧ chart_county = Some t ∧ t ≠ county_filter) →
  (update_branch_table locations cert state_filter county_filter
     chart_state chart_county).1 = [].
Proof.
  intros Hcert Ht Hconflict. rewrite update_branch_table_selected by done.
  assert (Htruthy : truthy (Some t) = true)
    by (simpl; by destruct (String.eqb_spec t "")).
  rewrite filter_none; [done|].
  intros r _ (_ & Hs & Hc & Hcs & Hcc).
  destruct Hconflict as [(Hall & -> & Hne)|(Hall & -> & Hne)].
  - destruct Hs as [?|Hs], Hcs as [?|Hcs]; congruence.
  - destruct Hc as [?|Hc], Hcc as [?|Hcc]; congruence.
Qed.

Lemma branch_table_conflict_sample :
  (update_branch_table sample_locations (Some "628") "TX" "ALL"
     (Some "OK") None).1 = [].
Proof.
  apply (branch_table_conflict sample_locations (Some "628") "TX" "ALL"
           (Some "OK") None "OK"); [reflexivity|done|].
  left. by split_and!.
Defined.

(** X12: a chart override never adds rows: the rows under any pair of overrides
    are a sub-list (same order) of the rows with both overrides unset, and
    the rows are always at most as many as the rows of [locations]. *)
Theorem branch_table_override_narrows (locations : list Loc.t)
    (cert : option string) (state_filter county_filter : string)
    (chart_state chart_county : option string) :
  (update_branch_table locations cert state_filter county_filter
     chart_state chart_county).1
  `sublist_of`
  (update_branch_table locations cert state_filter county_filter None None).1 ∧
  (length (update_branch_table locations cert state_filter county_filter
             chart_state chart_county).1 ≤ length locations)%nat.
Proof.
  split.
  - destruct (truthy cert) eqn:Hcert.
    + rewrite !update_branch_table_selected by done.
      unfold to_records. apply fmap_sublist.
      erewrite <- (list_filter_filter_l _ (λ r,
        Some (Loc.CERT r) = cert ∧
        dropdown_ok state_filter (Loc.STNAME r) ∧
        dropdown_ok county_filter (Loc.COUNTY r) ∧
        override_ok None (Loc.STNAME r) ∧ override_ok None (Loc.COUNTY r))).
      * apply sublist_filter.
      * intros r (? & ? & ? & _). split_and!; [done..|by left|by left].
    + by rewrite (update_branch_table_ignores_overrides _ _ _ _ _ _ None None).
  - destruct (update_branch_table_records locations cert state_filter
                county_filter chart_state chart_county) as (df & Hsub & ->).
    unfold to_records. rewrite length_fmap. by apply sublist_length.
Qed.

(** X13: every record of the branch table has exactly the ten columns the
    layout declares for the table, in the same order. *)
Theorem branch_table_record_columns (locations : list Loc.t)
    (cert : option string) (state_filter county_filter : string)
    (chart_state chart_county : option string) :
  Forall (λ record : list (string * cell), record.*1 = branch_table_columns)
    (update_branch_table locations cert state_filter county_filter
       chart_state chart_county).1.
Proof.
  destruct (update_branch_table_records locations cert state_filter
              county_filter chart_state chart_county) as (df & _ & ->).
  unfold to_records. apply Forall_fmap, Forall_forall. by intros r _.
Qed.

(** ** More on the chart-click overrides *)

(** X14: an event that is neither an upstream change nor a click with data
    leaves the override as it is: this covers the initial call (no
    trigger), an unknown trigger, and a chart whose click data is [None] or
    empty. *)
Theorem override_unchanged (triggered_id : option string)
    (bar pie county : option (gmap string (list (gmap string string))))
    (dropdown_state dropdown_county : string)
    (institution chart_state cur : option string) :
  (triggered_id ∉ [Some "state-filter"; Some "institution-dropdown"] →
   (triggered_id = Some "state-bar-chart" → truthy_click bar = None) →
   (triggered_id = Some "state-pie-chart" → truthy_click pie = None) →
   update_chart_state_filter triggered_id bar pie dropdown_state institution cur =
     Ok cur) ∧
  (triggered_id ∉ [Some "state-filter"; Some "county-filter";
                   Some "institution-dropdown"; Some "chart-state-filter"] →
   (triggered_id = Some "county-bar-chart" → truthy_click county = None) →
   update_chart_county_filter triggered_id county dropdown_state dropdown_county
     institution chart_state cur = Ok cur).
Proof.
  split.
  - intros Hreset Hbar Hpie. unfold update_chart_state_filter.
    rewrite decide_False by done.
    destruct (decide (triggered_id = Some "state-bar-chart")) as [Hb|_];
      [rewrite (Hbar Hb)|];
      (destruct (decide (triggered_id = Some "state-pie-chart")) as [Hp|_];
       [by rewrite (Hpie Hp)|done]).
  - intros Hreset Hcounty. unfold update_chart_county_filter.
    rewrite decide_False by done.
    by destruct (decide (triggered_id = Some "county-bar-chart")) as [Hc|_];
      [rewrite (Hcounty Hc)|].
Qed.

Lemma override_unchanged_sample :
  update_chart_state_filter (Some "state-bar-chart") (Some ∅) None "ALL" None
    (Some "TX") = Ok (Some "TX") ∧
  update_chart_county_filter None None "ALL" "ALL" None None (Some "Harris") =
    Ok (Some "Harris").
Proof.
  split.
  - apply (proj1 (override_unchanged (Some "state-bar-chart") (Some ∅) None None
                    "ALL" "ALL" None None (Some "TX"))); [|done..].
    rewrite !elem_of_cons, elem_of_nil. by intros [|[|]].
  - apply (proj2 (override_unchanged None None None None
                    "ALL" "ALL" None None (Some "Harris"))); [|done].
    rewrite !elem_of_cons, elem_of_nil. by intros [|[|[|[|]]]].
Defined.

Lemma clicked_value_raises click key e :
  clicked_value click key = Raise e ↔ malformed click key e.
Proof.
  unfold clicked_value, malformed, getitem.
  destruct (click !! "points") as [[|p points]|]; simpl.
  - split; [intros [= <-]; auto|].
    by intros [[[=] _]|[[_ ->]|(? & ? & [=] & _)]].
  - destruct (p !! key) eqn:Hp.
    + split; [done|]. intros [[[=] _]|[[[=] _]|(? & ? & [= <- <-] & Hk & _)]].
      by rewrite Hp in Hk.
    + split; [intros [= <-]; right; right; eauto|].
      by intros [[[=] _]|[[[=] _]|(? & ? & _ & _ & ->)]].
  - split; [intros [= <-]; auto|].
    by intros [[_ ->]|[[[=] _]|(? & ? & [=] & _)]].
Qed.

(** X15: the override callbacks raise only on a click of their own chart whose
    non-empty click data lacks ["points"], has no point, or whose first
    point lacks the key read ("x" for the bar, "label" for the pie, "y"
    for the county bar); the exception is the one of the failed subscript. *)
Theorem override_raises_iff (triggered_id : option string)
    (bar pie county : option (gmap string (list (gmap string string))))
    (dropdown_state dropdown_county : string)
    (institution chart_state cur : option string) (e : exn) :
  (update_chart_state_filter triggered_id bar pie dropdown_state institution cur =
     Raise e ↔
   ∃ click,
     (triggered_id = Some "state-bar-chart" ∧ truthy_click bar = Some click ∧
      malformed click "x" e) ∨
     (triggered_id = Some "state-pie-chart" ∧ truthy_click pie = Some click ∧
      malformed click "label" e)) ∧
  (update_chart_county_filter triggered_id county dropdown_state dropdown_county
     institution chart_state cur = Raise e ↔
   ∃ click,
     triggered_id = Some "county-bar-chart" ∧ truthy_click county = Some click ∧
     malformed click "y" e).
Proof.
  assert (Htoggle : ∀ (m : result string) (cur : option string),
    (clicked ← m; if decide (cur = Some clicked) then Ok None
                  else Ok (Some clicked)) = Raise e ↔ m = Raise e).
  { intros [v|e'] cur'; unfold mbind, result_bind.
    - by destruct (decide _).
    - split; by intros [= ->]. }
  split.
  - unfold update_chart_state_filter. destruct (decide (_ ∈ _)) as [Hin|_].
    { split; [done|]. revert Hin. rewrite !elem_of_cons, elem_of_nil.
      intros [->|[->|[]]] (click & [([=] & _)|([=] & _)]). }
    destruct (decide (triggered_id = Some "state-bar-chart")) as [->|Hb].
    + destruct (truthy_click bar) as [d|].
      * rewrite Htoggle, clicked_value_raises. split; [eauto 10|].
        by intros (click & [(_ & [= <-] & ?)|([=] & _)]).
      * rewrite decide_False by done. split; [done|].
        by intros (click & [(_ & [=] & _)|([=] & _)]).
    + destruct (decide (triggered_id = Some "state-pie-chart")) as [->|Hp].
      * destruct (truthy_click pie) as [d|].
        -- rewrite Htoggle, clicked_value_raises. split; [eauto 10|].
           by intros (click & [([=] & _)|(_ & [= <-] & ?)]).
        -- split; [done|]. by intros (click & [([=] & _)|(_ & [=] & _)]).
      * split; [done|]. by intros (click & [(? & _)|(? & _)]).
  - unfold update_chart_county_filter. destruct (decide (_ ∈ _)) as [Hin|_].
    { split; [done|]. revert Hin. rewrite !elem_of_cons, elem_of_nil.
      by intros [->|[->|[->|[->|[]]]]] (click & [=] & _). }
    destruct (decide (triggered_id = Some "county-bar-chart")) as [->|Hb].
    + destruct (truthy_click county) as [d|].
      * rewrite Htoggle, clicked_value_raises. split; [eauto|].
        by intros (click & _ & [= <-] & ?).
      * split; [done|]. by intros (click & _ & [=] & _).
    + split; [done|]. by intros (click & ? & _).
Qed.

(** ** The institutions of an area *)

Lemma insert_by_Branches_Permutation x l : insert_by_Branches x l ≡ₚ x :: l.
Proof.
  induction l as [|y l IH]; simpl; [done|].
  destruct (decide _); [done|]. by rewrite IH, Permutation_swap.
Qed.

Lemma sort_by_Branches_Permutation l : sort_by_Branches l ≡ₚ l.
Proof.
  induction l as [|x l IH]; simpl; [done|].
  by rewrite insert_by_Branches_Permutation, IH.
Qed.

Lemma insert_by_Branches_sorted x l :
  StronglySorted (λ a b : string * cell * nat, (b.2 ≤ a.2)%nat) l →
  StronglySorted (λ a b : string * cell * nat, (b.2 ≤ a.2)%nat)
    (insert_by_Branches x l).
Proof.
  induction 1 as [|y l Hl IH Hy]; simpl.
  - repeat constructor.
  - destruct (decide (y.2 ≤ x.2)%nat) as [Hxy|Hxy].
    + constructor; [by constructor|]. constructor; [done|].
      eapply Forall_impl; [done|]. simpl. lia.
    + constructor; [done|]. rewrite insert_by_Branches_Permutation.
      constructor; [lia|done].
Qed.

Lemma sort_by_Branches_sorted l :
  StronglySorted (λ a b : string * cell * nat, (b.2 ≤ a.2)%nat)
    (sort_by_Branches l).
Proof.
  induction l as [|x l IH]; simpl; [constructor|].
  by apply insert_by_Branches_sorted.
Qed.

(** The keys that [groupby] sees: the (CERT, NAME) pairs of the rows whose
    NAME is not missing. *)
Lemma count_key (df : list Loc.t) (k : string * cell) :
  k.2 ≠ NaN →
  length (filter (λ k', k' = k)
            (filter (λ k : string * cell, k.2 ≠ NaN)
               ((λ r, (Loc.CERT r, Loc.NAME r)) <$> df))) =
  length (filter (λ r, Loc.CERT r = k.1 ∧ Loc.NAME r = k.2) df).
Proof.
  intros Hk. induction df as [|r df IH]; [done|].
  rewrite fmap_cons, (filter_cons (λ r, Loc.CERT r = k.1 ∧ Loc.NAME r = k.2)).
  rewrite filter_cons. simpl.
  destruct (decide (Loc.NAME r ≠ NaN)) as [Hn|Hn%dec_stable].
  - rewrite filter_cons. destruct (decide ((Loc.CERT r, Loc.NAME r) = k)) as [<-|Hne].
    + rewrite decide_True by done. simpl. by rewrite IH.
    + rewrite decide_False; [done|]. intros [? ?]. apply Hne. by destruct k; simplify_eq/=.
  - rewrite decide_False; [done|]. intros [_ ?]. congruence.
Qed.

Lemma groupby_keys (df : list Loc.t) :
  (groupby_CERT_NAME_size df).*1 ≡ₚ
  unique (filter (λ k : string * cell, k.2 ≠ NaN)
            ((λ r, (Loc.CERT r, Loc.NAME r)) <$> df)).
Proof.
  unfold groupby_CERT_NAME_size. rewrite <- list_fmap_compose.
  rewrite <- (merge_sort_Permutation key_le (unique _)) at 2.
  by rewrite <- (list_fmap_id (merge_sort key_le _)) at 2.
Qed.

Lemma elem_of_groupby (df : list Loc.t) c nm n :
  (c, nm, n) ∈ groupby_CERT_NAME_size df →
  nm ≠ NaN ∧ (1 ≤ n)%nat ∧
  n = length (filter (λ r, Loc.CERT r = c ∧ Loc.NAME r = nm) df).
Proof.
  unfold groupby_CERT_NAME_size. rewrite list_elem_of_fmap.
  intros (k & [= <- ->] & Hk).
  rewrite merge_sort_Permutation, elem_of_unique in Hk.
  apply list_elem_of_filter in Hk as [Hnm Hk]. simpl in Hnm.
  rewrite (count_key df (c, nm)) by done. split_and!; [done| |done].
  apply list_elem_of_fmap in Hk as (r & [= -> ->] & Hr).
  assert (Hin : r ∈ filter (λ r', Loc.CERT r' = Loc.CERT r ∧
                                  Loc.NAME r' = Loc.NAME r) df)
    by by apply list_elem_of_filter.
  simpl. destruct (filter _ df); [by apply elem_of_nil in Hin|simpl; lia].
Qed.

(** What [update_institutions_in_area] returns when it returns a section. *)
Lemma update_institutions_in_area_shown locations cert sf cf :
  truthy cert = false → ¬ (sf = "ALL" ∧ cf = "ALL") →
  ∃ area,
    update_institutions_in_area locations cert sf cf =
    Some {|
      heading := "Institutions Operating in " +:+ String.concat ", " area;
      summary :=
        fmt_thousands (length (groupby_CERT_NAME_size
          (filter (branch_matches sf cf) locations))) +:+
        " institutions with " +:+
        fmt_thousands (length (filter (branch_matches sf cf) locations)) +:+
        " total branches";
      fig_title :=
        "Top Institutions in " +:+ String.concat ", " area +:+ " (" +:+
        fmt_nat (length (groupby_CERT_NAME_size
          (filter (branch_matches sf cf) locations))) +:+ " total)";
      top_institutions :=
        head 20 (sort_by_Branches (groupby_CERT_NAME_size
          (filter (branch_matches sf cf) locations)))
    |}.
Proof.
  intros Hcert Hall. unfold update_institutions_in_area.
  rewrite Hcert, bool_decide_eq_false_2 by done. simpl orb. cbv iota.
  assert (Hf : filter (branch_matches sf cf) locations =
    filter (λ r, dropdown_ok cf (Loc.COUNTY r))
      (filter (λ r, dropdown_ok sf (Loc.STNAME r)) locations)).
  { rewrite list_filter_filter. apply list_filter_iff. intros r.
    unfold branch_matches. tauto. }
  rewrite Hf, <- (filter_dropdown Loc.COUNTY cf), <- (filter_dropdown Loc.STNAME sf).
  destruct (decide (sf ≠ "ALL")), (decide (cf ≠ "ALL")); cbv zeta iota beta;
    rewrite !(length_Permutation_proper _ _ (sort_by_Branches_Permutation _));
    eexists; reflexivity.
Qed.

Lemma institutions_in_area_shown_inv locations cert sf cf section :
  update_institutions_in_area locations cert sf cf = Some section →
  truthy cert = false ∧ ¬ (sf = "ALL" ∧ cf = "ALL").
Proof.
  unfold update_institutions_in_area. destruct (truthy cert); [done|].
  destruct (bool_decide_reflect (sf = "ALL" ∧ cf = "ALL")); [done|]. by intros _.
Qed.

Lemma elem_of_groupby_keys (df : list Loc.t) c name :
  (c, name) ∈ (groupby_CERT_NAME_size df).*1 ↔
  name ≠ NaN ∧ ∃ r, r ∈ df ∧ Loc.CERT r = c ∧ Loc.NAME r = name.
Proof.
  rewrite groupby_keys, elem_of_unique, list_elem_of_filter, list_elem_of_fmap.
  simpl. split.
  - intros (Hname & r & [= -> ->] & Hr). eauto.
  - intros (Hname & r & Hr & <- & <-). eauto.
Qed.

(** X16: the area section is shown exactly when no institution is selected and
    a dropdown is not "ALL".  Its groups are the distinct (CERT, NAME)
    pairs, with a name, of the branches of the area; the summary line
    reports the number of groups and, as the number of branches, the number
    of rows the branch table shows at the same time; the chart has one bar
    per group, up to twenty. *)
Theorem institutions_in_area_summary (locations : list Loc.t)
    (cert : option string) (state_filter county_filter : string) :
  (update_institutions_in_area locations cert state_filter county_filter = None ↔
     truthy cert = true ∨ (state_filter = "ALL" ∧ county_filter = "ALL")) ∧
  ∀ section cs cc,
    update_institutions_in_area locations cert state_filter county_filter =
      Some section →
    ∃ groups : list (string * cell),
      NoDup groups ∧
      (∀ c name, (c, name) ∈ groups ↔
         name ≠ NaN ∧
         ∃ r, r ∈ locations ∧ branch_matches state_filter county_filter r ∧
              Loc.CERT r = c ∧ Loc.NAME r = name) ∧
      summary section =
        fmt_thousands (length groups) +:+ " institutions with " +:+
        fmt_thousands (length (update_branch_table locations cert state_filter
                                 county_filter cs cc).1) +:+
        " total branches" ∧
      length (top_institutions section) = min 20 (length groups).
Proof.
  split.
  - unfold update_institutions_in_area. destruct (truthy cert); simpl orb.
    { split; auto. }
    destruct (bool_decide_reflect (state_filter = "ALL" ∧ county_filter = "ALL"))
      as [Hall|Hall]; [split; auto|].
    split; [|by intros [|]].
    by destruct (decide (state_filter ≠ "ALL")), (decide (county_filter ≠ "ALL")).
  - intros section cs cc Heq.
    destruct (institutions_in_area_shown_inv locations cert state_filter
                county_filter section Heq) as (Hcert & Hall).
    destruct (update_institutions_in_area_shown locations cert state_filter
                county_filter Hcert Hall) as (area & Heq').
    rewrite Heq' in Heq. apply (inj Some) in Heq as <-.
    unfold summary, top_institutions.
    exists (groupby_CERT_NAME_size
              (filter (branch_matches state_filter county_filter) locations)).*1.
    split_and!.
    + rewrite groupby_keys. apply NoDup_unique.
    + intros c name. rewrite elem_of_groupby_keys.
      setoid_rewrite list_elem_of_filter. split.
      * intros (Hname & r & [Hm Hr] & Hc & Hn). eauto 10.
      * intros (Hname & r & Hr & Hm & Hc & Hn). eauto 10.
    + rewrite length_fmap, update_branch_table_unselected, decide_False by done.
      unfold to_records. rewrite length_fmap. reflexivity.
    + rewrite length_head, length_fmap.
      by rewrite (length_Permutation_proper _ _ (sort_by_Branches_Permutation _)).
Qed.

(** On the sample tables, state "TX": one group, ("628", "First Bank"),
    three branches and one bar. *)
Lemma institutions_in_area_summary_sample :
  ∃ groups : list (string * cell),
    NoDup groups ∧
    (∀ c name, (c, name) ∈ groups ↔
       name ≠ NaN ∧
       ∃ r, r ∈ sample_locations ∧ branch_matches "TX" "ALL" r ∧
            Loc.CERT r = c ∧ Loc.NAME r = name) ∧
    "1 institutions with 3 total branches" =
      fmt_thousands (length groups) +:+ " institutions with " +:+
      fmt_thousands (length (update_branch_table sample_locations None "TX" "ALL"
                               (Some "OK") None).1) +:+
      " total branches" ∧
    length [("628", Str "First Bank", 3%nat)] = min 20 (length groups).
Proof.
  apply (proj2 (institutions_in_area_summary sample_locations None "TX" "ALL")
           {| heading := "Institutions Operating in TX";
              summary := "1 institutions with 3 total branches";
              fig_title := "Top Institutions in TX (1 total)";
              top_institutions := [("628", Str "First Bank", 3%nat)] |}
           (Some "OK") None).
  reflexivity.
Defined.

(** X17: the bars of the area chart: by descending count, one per (CERT, NAME)
    pair, never for a missing name, each with the number of branches of
    the area that carry the pair. *)
Theorem institutions_in_area_bars (locations : list Loc.t)
    (cert : option string) (state_filter county_filter : string)
    (section : area_section) :
  update_institutions_in_area locations cert state_filter county_filter =
    Some section →
  StronglySorted (λ a b : string * cell * nat, (b.2 ≤ a.2)%nat)
    (top_institutions section) ∧
  NoDup (top_institutions section).*1 ∧
  ∀ c name k, (c, name, k) ∈ top_institutions section →
    name ≠ NaN ∧ (1 ≤ k)%nat ∧
    k = length (filter (λ r, branch_matches state_filter county_filter r ∧
                             Loc.CERT r = c ∧ Loc.NAME r = name) locations).
Proof.
  intros Heq.
  destruct (institutions_in_area_shown_inv locations cert state_filter
              county_filter section Heq) as (Hcert & Hall).
  destruct (update_institutions_in_area_shown locations cert state_filter
              county_filter Hcert Hall) as (area & Heq').
  rewrite Heq' in Heq. apply (inj Some) in Heq as <-. unfold top_institutions.
  split_and!.
  - apply StronglySorted_take, sort_by_Branches_sorted.
  - unfold head. rewrite fmap_take. eapply sublist_NoDup; [|apply sublist_take].
    rewrite sort_by_Branches_Permutation, groupby_keys. apply NoDup_unique.
  - intros c name k Hin%subseteq_take.
    rewrite sort_by_Branches_Permutation in Hin.
    apply elem_of_groupby in Hin as (Hname & Hk & ->). split_and!; [done..|].
    rewrite list_filter_filter. f_equal. apply list_filter_iff. intros r. tauto.
Qed.

Lemma institutions_in_area_bars_sample :
  (3 : nat) = length (filter (λ r, branch_matches "TX" "ALL" r ∧
                                   Loc.CERT r = "628" ∧
                                   Loc.NAME r = Str "First Bank") sample_locations).
Proof.
  pose proof (institutions_in_area_bars sample_locations None "TX" "ALL"
    {| heading := "Institutions Operating in TX";
       summary := "1 institutions with 3 total branches";
       fig_title := "Top Institutions in TX (1 total)";
       top_institutions := [("628", Str "First Bank", 3%nat)] |} eq_refl)
    as (_ & _ & H).
  exact (proj2 (proj2 (H "628" (Str "First Bank") 3%nat (list_elem_of_here _ _)))).
Defined.

(** *** Counting by groups *)

Lemma sum_list_with_ext_in {A} (f g : A → nat) (l : list A) :
  (∀ x, x ∈ l → f x = g x) → sum_list_with f l = sum_list_with g l.
Proof.
  induction l as [|x l IH]; intros Hfg; [done|]. simpl.
  rewrite (Hfg x) by apply list_elem_of_here.
  rewrite IH; [done|]. intros y Hy. by apply Hfg, list_elem_of_further.
Qed.

Lemma sum_list_with_fmap {A B} (h : A → B) (f : B → nat) (l : list A) :
  sum_list_with f (h <$> l) = sum_list_with (f ∘ h) l.
Proof.
  induction l as [|x l IH]; [done|].
  change (f (h x) + sum_list_with f (h <$> l) =
          f (h x) + sum_list_with (f ∘ h) l)%nat.
  by rewrite IH.
Qed.

Lemma sum_list_with_take {A} (f : A → nat) n (l : list A) :
  (sum_list_with f (take n l) ≤ sum_list_with f l)%nat.
Proof.
  revert n. induction l as [|x l IH]; intros [|n]; simpl; try lia.
  specialize (IH n). lia.
Qed.

Lemma length_filter_split {A} (P : A → Prop) `{!∀ x, Decision (P x)} (l : list A) :
  length l = (length (filter P l) + length (filter (λ x, ¬ P x) l))%nat.
Proof.
  induction l as [|x l IH]; [done|]. rewrite !filter_cons.
  destruct (decide (P x)).
  - rewrite decide_False by tauto. simpl. lia.
  - rewrite decide_True by done. simpl. lia.
Qed.

(** The group sizes of a list add up to its length. *)
Lemma sum_counts `{EqDecision A} (ks : list A) :
  NoDup ks → ∀ l : list A, (∀ x, x ∈ l → x ∈ ks) →
  sum_list_with (λ k, length (filter (λ x, x = k) l)) ks = length l.
Proof.
  induction 1 as [|k ks Hk Hks IH]; intros l Hl.
  - destruct l as [|x l]; [done|].
    by destruct (not_elem_of_nil x); apply Hl, list_elem_of_here.
  - simpl. rewrite (length_filter_split (λ x, x = k) l). f_equal.
    rewrite <- (IH (filter (λ x, ¬ x = k) l)).
    + apply sum_list_with_ext_in. intros k' Hk'. f_equal.
      rewrite list_filter_filter. apply list_filter_iff.
      intros x. split; [|tauto]. intros ->. split; [done|]. by intros ->.
    + intros x [Hne Hx]%list_elem_of_filter.
      apply Hl, elem_of_cons in Hx as [->|Hx]; done.
Qed.

Lemma groupby_total (df : list Loc.t) :
  sum_list_with snd (groupby_CERT_NAME_size df) =
  length (filter (λ r, Loc.NAME r ≠ NaN) df).
Proof.
  unfold groupby_CERT_NAME_size. rewrite sum_list_with_fmap.
  rewrite (sum_list_with_Permutation_proper _ _ _ (merge_sort_Permutation _ _)).
  unfold compose. simpl. rewrite sum_counts.
  - induction df as [|r df IH]; [done|]. rewrite fmap_cons, !filter_cons. simpl.
    destruct (decide (Loc.NAME r ≠ NaN)); simpl; by rewrite IH.
  - apply NoDup_unique.
  - intros x. by rewrite elem_of_unique.
Qed.

(** X18: branches whose institution name is missing are counted in the total of
    the summary line but belong to no bar: the counts of the bars add up to
    at most the number of named branches of the area, itself at most the
    number of branches of the area; with fewer than twenty bars they add up
    to exactly the number of named branches. *)
Theorem institutions_in_area_totals (locations : list Loc.t)
    (cert : option string) (state_filter county_filter : string)
    (section : area_section) :
  update_institutions_in_area locations cert state_filter county_filter =
    Some section →
  (sum_list_with snd (top_institutions section) ≤
   length (filter (λ r, branch_matches state_filter county_filter r ∧
                        Loc.NAME r ≠ NaN) locations) ≤
   length (filter (branch_matches state_filter county_filter) locations))%nat ∧
  ((length (top_institutions section) < 20)%nat →
   sum_list_with snd (top_institutions section) =
   length (filter (λ r, branch_matches state_filter county_filter r ∧
                        Loc.NAME r ≠ NaN) locations)).
Proof.
  intros Heq.
  destruct (institutions_in_area_shown_inv locations cert state_filter
              county_filter section Heq) as (Hcert & Hall).
  destruct (update_institutions_in_area_shown locations cert state_filter
              county_filter Hcert Hall) as (area & Heq').
  rewrite Heq' in Heq. apply (inj Some) in Heq as <-. unfold top_institutions.
  set (area_branches := filter (branch_matches state_filter county_filter) locations).
  assert (Hnamed : filter (λ r, branch_matches state_filter county_filter r ∧
                                Loc.NAME r ≠ NaN) locations =
                   filter (λ r, Loc.NAME r ≠ NaN) area_branches).
  { unfold area_branches. rewrite list_filter_filter.
    apply list_filter_iff. intros r. tauto. }
  rewrite Hnamed, <- groupby_total.
  rewrite <- (sum_list_with_Permutation_proper _ _ _
                (sort_by_Branches_Permutation (groupby_CERT_NAME_size area_branches))).
  split_and!.
  - apply sum_list_with_take.
  - rewrite (sum_list_with_Permutation_proper _ _ _
               (sort_by_Branches_Permutation _)), groupby_total.
    apply length_filter.
  - rewrite length_head. intros Hlt. unfold head. rewrite take_ge; [done|lia].
Qed.

(** One of the two "OK" branches has no institution name: the summary line
    says two branches, the only bar counts one. *)
Lemma institutions_in_area_totals_sample :
  (1 : nat) =
  length (filter (λ r, branch_matches "OK" "ALL" r ∧ Loc.NAME r ≠ NaN)
    [branch "628" (Some "Tulsa") (Some "OK");
     Loc.mk "628" NaN NaN NaN NaN None (Some "OK") NaN NaN NaN NaN None None]).
Proof.
  refine (proj2 (institutions_in_area_totals
    [branch "628" (Some "Tulsa") (Some "OK");
     Loc.mk "628" NaN NaN NaN NaN None (Some "OK") NaN NaN NaN NaN None None]
    None "OK" "ALL"
    {| heading := "Institutions Operating in OK";
       summary := "1 institutions with 2 total branches";
       fig_title := "Top Institutions in OK (1 total)";
       top_institutions := [("628", Str "First Bank", 1%nat)] |} eq_refl) _).
  simpl. lia.
Defined.

(** * The fetcher *)

Lemma pages_needed_nonpos total limit :
  (0 < limit)%Z → (total ≤ 0)%Z → pages_needed total limit = 0%nat.
Proof.
  intros Hlimit Htotal. unfold pages_needed.
  assert ((total + limit - 1) / limit < 1)%Z; [|lia].
  apply Z.div_lt_upper_bound; lia.
Qed.

Lemma pages_needed_pos total limit :
  (0 < limit)%Z → (0 < total)%Z →
  pages_needed total limit = S (pages_needed (total - limit) limit).
Proof.
  intros Hlimit Htotal. unfold pages_needed.
  replace (total + limit - 1)%Z with (total - limit + limit - 1 + 1 * limit)%Z by lia.
  rewrite Z.div_add by lia.
  assert (0 ≤ (total - limit + limit - 1) / limit)%Z; [|lia].
  apply Z.div_pos; lia.
Qed.

Lemma page_records_page_of dataset p :
  Fetch.page_records (page_of dataset p) =
  Some (take (Z.to_nat (Fetch.limit p))
          (drop (Z.to_nat (default 0%Z (Fetch.offset p))) dataset)).
Proof.
  unfold Fetch.page_records, page_of. simpl.
  apply mapM_fmap_Some. intros r. apply lookup_singleton_eq.
Qed.

Section fetch.
Context {W : Type} (get : W → Fetch.request → W * Fetch.response).
Context (endpoint : string) (fields : list string) (filters : option string).
Context (limit : Z).

(** One turn of the loop. *)
Lemma fetch_pages_step fuel total offset all_records w log :
  (offset < total)%Z →
  Fetch.fetch_pages get (S fuel) endpoint fields filters limit total offset
    all_records w log =
  let req := page_request endpoint fields filters limit offset in
  match (get w req).2 with
  | Fetch.HTTPFailure =>
      ((get w req).1, log ++ [(req, (get w req).2)], Fetch.Abort Fetch.HTTPError)
  | Fetch.Json b =>
      match Fetch.page_records b with
      | None =>
          ((get w req).1, log ++ [(req, (get w req).2)],
           Fetch.Abort (Fetch.KeyError "data"))
      | Some records =>
          Fetch.fetch_pages get fuel endpoint fields filters limit total
            (offset + limit)%Z (all_records ++ records) (get w req).1
            (log ++ [(req, (get w req).2)])
      end
  end.
Proof.
  intros Hlt. simpl. rewrite decide_True by done. unfold page_request.
  by destruct (get w _) as [w1 [|b]].
Qed.

Lemma fetch_pages_stop fuel total offset all_records w log :
  ¬ (offset < total)%Z →
  Fetch.fetch_pages get fuel endpoint fields filters limit total offset
    all_records w log = (w, log, Fetch.Done all_records).
Proof. intros Hge. destruct fuel; simpl; by rewrite decide_False. Qed.

Lemma fetch_pages_complete (dataset : list (gmap string cell)) :
  serves get dataset → (0 < limit)%Z →
  ∀ fuel offset all_records w log,
    (0 ≤ offset)%Z →
    all_records = take (Z.to_nat offset) dataset →
    (pages_needed (Z.of_nat (length dataset) - offset) limit ≤ fuel)%nat →
    ∃ w' pages,
      Fetch.fetch_pages get fuel endpoint fields filters limit
        (Z.of_nat (length dataset)) offset all_records w log =
        (w', log ++ pages, Fetch.Done dataset) ∧
      pages.*1 = page_request endpoint fields filters limit <$>
        page_offsets (pages_needed (Z.of_nat (length dataset) - offset) limit)
          offset limit.
Proof.
  intros Hserves Hlimit fuel.
  induction fuel as [|fuel IH]; intros offset acc w log Hoff Hacc Hfuel;
    (destruct (decide (offset < Z.of_nat (length dataset))%Z) as [Hlt|Hge];
     [|rewrite fetch_pages_stop, pages_needed_nonpos by lia;
       exists w, []; by rewrite app_nil_r, Hacc, take_ge by lia]).
  - rewrite pages_needed_pos in Hfuel by lia. lia.
  - rewrite fetch_pages_step by done. cbv zeta.
    destruct (Hserves w (page_request endpoint fields filters limit offset))
      as (w1 & Hget).
    rewrite Hget. cbn [fst snd]. rewrite page_records_page_of.
    rewrite pages_needed_pos in Hfuel |- * by lia.
    match goal with
    | |- context [Fetch.fetch_pages _ _ _ _ _ _ _ _ ?a ?w ?l] =>
        destruct (IH (offset + limit)%Z a w l) as (w' & pages & Hrun & Hreqs)
    end.
    + lia.
    + rewrite Hacc. cbn. rewrite take_take_drop. f_equal. lia.
    + replace (Z.of_nat (length dataset) - (offset + limit))%Z
        with (Z.of_nat (length dataset) - offset - limit)%Z by lia. lia.
    + rewrite Hrun. eexists w', (_ :: pages). split; [by rewrite <- app_assoc|].
      rewrite fmap_cons. cbn [fst page_offsets fmap list_fmap]. f_equal.
      rewrite Hreqs. do 3 f_equal. lia.
Qed.

(** X19: served by a server that holds a fixed list of records and honours
    [limit] and [offset], and given a positive [limit], [fetch_all_records]
    returns the whole list, each record once and in order; it sends the
    counting request and then one page request per [limit] records, at
    offsets 0, [limit], 2 [limit], ... *)
Theorem fetch_complete (dataset : list (gmap string cell)) (fuel : nat) (w : W) :
  serves get dataset → (0 < limit)%Z →
  (pages_needed (Z.of_nat (length dataset)) limit ≤ fuel)%nat →
  ∃ w' log,
    Fetch.fetch_all_records get fuel endpoint fields filters limit w =
      (w', log, Fetch.Done dataset) ∧
    log.*1 = count_request endpoint fields filters ::
      (page_request endpoint fields filters limit <$>
         page_offsets (pages_needed (Z.of_nat (length dataset)) limit) 0 limit).
Proof.
  intros Hserves Hlimit Hfuel. unfold Fetch.fetch_all_records.
  destruct (Hserves w (count_request endpoint fields filters)) as (w1 & Hget).
  unfold count_request in Hget. rewrite Hget. cbn [Fetch.meta page_of].
  rewrite lookup_singleton_eq.
  match goal with
  | |- context [Fetch.fetch_pages _ _ _ _ _ _ _ _ ?a ?w ?l] =>
      destruct (fetch_pages_complete dataset Hserves Hlimit fuel 0 a w l)
        as (w' & pages & Hrun & Hreqs)
  end; [done|done|by rewrite Z.sub_0_r|].
  rewrite Hrun. eexists w', _. split; [done|].
  rewrite fmap_app, Hreqs, Z.sub_0_r. done.
Qed.

Lemma fetch_pages_done fuel total :
  ∀ offset all_records w log w' log' records,
    Fetch.fetch_pages get fuel endpoint fields filters limit total offset
      all_records w log = (w', log', Fetch.Done records) →
    ∃ pages,
      log' = log ++ pages ∧
      records = all_records ++ mjoin ((response_records ∘ snd) <$> pages) ∧
      Forall (λ x : Fetch.request * Fetch.response,
                ∃ b, x.2 = Fetch.Json b ∧ is_Some (Fetch.page_records b)) pages ∧
      pages.*1 = page_request endpoint fields filters limit <$>
                   page_offsets (length pages) offset limit.
Proof.
  induction fuel as [|fuel IH]; intros offset acc w log w' log' records;
    (destruct (decide (offset < total)%Z) as [Hlt|Hge];
     [|rewrite fetch_pages_stop by done; intros [= <- <- <-];
       exists []; by rewrite !app_nil_r]).
  - simpl. by rewrite decide_True.
  - rewrite fetch_pages_step by done. cbv zeta.
    destruct (get w _) as [w1 [|b]] eqn:Hget; cbn [fst snd]; [done|].
    destruct (Fetch.page_records b) as [recs|] eqn:Hrecs; [|done].
    intros (pages & -> & -> & Hok & Hreqs)%IH.
    eexists (_ :: pages). split_and!.
    + by rewrite <- app_assoc.
    + rewrite fmap_cons. cbn [mjoin list_join compose snd response_records].
      rewrite Hrecs. cbn [default]. by rewrite <- app_assoc.
    + constructor; [|done]. exists b. by rewrite Hrecs.
    + rewrite fmap_cons. cbn [length page_offsets fst]. by rewrite fmap_cons, Hreqs.
Qed.

(** X20: whatever the server does, a run of [fetch_all_records] that returns has
    sent the counting request and then page requests at offsets 0, [limit],
    2 [limit], ...; every response was a well-formed body, and the records
    returned are those of the page responses, concatenated in order. *)
Theorem fetch_done_concat (fuel : nat) (w w' : W)
    (log : list (Fetch.request * Fetch.response))
    (records : list (gmap string cell)) :
  Fetch.fetch_all_records get fuel endpoint fields filters limit w =
    (w', log, Fetch.Done records) →
  ∃ first pages,
    log = first :: pages ∧
    first.1 = count_request endpoint fields filters ∧
    pages.*1 = page_request endpoint fields filters limit <$>
                 page_offsets (length pages) 0 limit ∧
    Forall (λ x : Fetch.request * Fetch.response,
              ∃ b, x.2 = Fetch.Json b ∧ is_Some (Fetch.page_records b)) pages ∧
    records = mjoin ((response_records ∘ snd) <$> pages).
Proof.
  unfold Fetch.fetch_all_records.
  destruct (get w _) as [w1 [|b]] eqn:Hget; [done|].
  destruct (Fetch.meta b) as [meta|]; [|done].
  destruct (meta !! "total") as [total|]; [|done].
  intros (pages & -> & -> & Hok & Hreqs)%fetch_pages_done.
  eexists _, pages. by split_and!.
Qed.

Lemma fetch_pages_loops total :
  always_answers get total → (0 < total)%Z → (limit ≤ 0)%Z →
  ∀ fuel offset all_records w log,
    (offset ≤ 0)%Z →
    ∃ w' log',
      Fetch.fetch_pages get fuel endpoint fields filters limit total offset
        all_records w log = (w', log', Fetch.OutOfFuel) ∧
      length log' = (length log + fuel)%nat.
Proof.
  intros Hget Htotal Hlimit fuel.
  induction fuel as [|fuel IH]; intros offset acc w log Hoff.
  - simpl. rewrite decide_True by lia. exists w, log. split; [done|lia].
  - rewrite fetch_pages_step by lia. cbv zeta.
    destruct (Hget w (page_request endpoint fields filters limit offset))
      as (w1 & b & recs & Heq & _ & Hrecs).
    rewrite Heq. cbn [fst snd]. rewrite Hrecs.
    match goal with
    | |- context [Fetch.fetch_pages _ _ _ _ _ _ _ _ ?a ?w ?l] =>
        destruct (IH (offset + limit)%Z a w l) as (w' & log' & Hrun & Hlen)
    end; [lia|].
    rewrite Hrun. exists w', log'. split; [done|].
    rewrite Hlen, length_app. simpl. lia.
Qed.

(** X21: with a [limit] of zero or less the loop never ends: if the server
    answers every request and announces at least one record, then however
    many turns the loop is given it is still looping, having sent one page
    request per turn. *)
Theorem fetch_never_ends (total : Z) (fuel : nat) (w : W) :
  always_answers get total → (0 < total)%Z → (limit ≤ 0)%Z →
  ∃ w' log,
    Fetch.fetch_all_records get fuel endpoint fields filters limit w =
      (w', log, Fetch.OutOfFuel) ∧
    length log = S fuel.
Proof.
  intros Hget Htotal Hlimit. unfold Fetch.fetch_all_records.
  destruct (Hget w (Fetch.make_request endpoint
                      (Fetch.make_params 1 None fields filters)))
    as (w1 & b & recs & Heq & Hmeta & _).
  rewrite Heq. destruct (Fetch.meta b) as [meta|]; [|done].
  simpl in Hmeta. rewrite Hmeta.
  match goal with
  | |- context [Fetch.fetch_pages _ _ _ _ _ _ _ _ ?a ?w ?l] =>
      destruct (fetch_pages_loops total Hget Htotal Hlimit fuel 0 a w l)
        as (w' & log' & Hrun & Hlen)
  end; [done|].
  rewrite Hrun. by exists w', log'.
Qed.

End fetch.

Lemma serves_sample_server dataset : serves (sample_server dataset) dataset.
Proof. intros w req. by exists w. Qed.

(** Three records fetched two at a time: two pages, at offsets 0 and 2. *)
Lemma fetch_complete_sample :
  ∃ w' log,
    Fetch.fetch_all_records (sample_server sample_dataset) 2 "institutions"
      ["CERT"; "NAME"] (Some "ACTIVE:1") 2 tt =
      (w', log, Fetch.Done sample_dataset) ∧
    log.*1 = count_request "institutions" ["CERT"; "NAME"] (Some "ACTIVE:1") ::
      (page_request "institutions" ["CERT"; "NAME"] (Some "ACTIVE:1") 2 <$>
         [0; 2]%Z).
Proof.
  apply (fetch_complete (sample_server sample_dataset) "institutions"
           ["CERT"; "NAME"] (Some "ACTIVE:1") 2 sample_dataset 2 tt).
  - apply serves_sample_server.
  - done.
  - vm_compute. lia.
Defined.

Lemma fetch_done_concat_sample :
  ∃ first pages,
    (Fetch.fetch_all_records (sample_server sample_dataset) 5 "locations"
       ["CERT"] None 2 tt).1.2 = first :: pages ∧
    first.1 = count_request "locations" ["CERT"] None ∧
    pages.*1 = page_request "locations" ["CERT"] None 2 <$>
                 page_offsets (length pages) 0 2 ∧
    Forall (λ x : Fetch.request * Fetch.response,
              ∃ b, x.2 = Fetch.Json b ∧ is_Some (Fetch.page_records b)) pages ∧
    sample_dataset = mjoin ((response_records ∘ snd) <$> pages).
Proof.
  apply (fetch_done_concat (sample_server sample_dataset) "locations" ["CERT"]
           None 2 5 tt tt).
  by vm_compute.
Defined.

(** A [limit] of 0 against a server announcing three records. *)
Lemma fetch_never_ends_sample :
  ∃ w' log,
    Fetch.fetch_all_records (sample_server sample_dataset) 4 "locations"
      ["CERT"] None 0 tt = (w', log, Fetch.OutOfFuel) ∧
    length log = 5%nat.
Proof.
  apply (fetch_never_ends (sample_server sample_dataset) "locations" ["CERT"]
           None 0 3 4 tt); [|done..].
  intros w req. eexists w, _, _. split_and!; [done|done|].
  apply page_records_page_of.
Defined.
